(** * The GameObject gateway of unity-mcp: [Python/tools/manage_gameobject.py]

    A shallow embedding of the tool function [manage_gameobject] and the
    properties of its request construction and response handling.

    Layout: the Python values the function handles, its dictionaries and
    string methods; the declared parameters and their defaults; the
    computation type (exceptions and the two calls into the
    [unity_connection] module); the function itself; then the theorems. *)

From Stdlib Require Import String Ascii List ZArith Bool Lia.
From Stdlib Require Import Floats.SpecFloat.
From ExtLib Require Import Structures.Monad Structures.MonadExc.
Import ListNotations.
Import MonadNotation.

Local Open Scope string_scope.
Local Open Scope list_scope.
Local Open Scope monad_scope.

Set Warnings "-register-all".

(* ================================================================== *)
(** ** Python values *)
(* ================================================================== *)

(** The values that travel through the function: what the type hints of
    the signature admit, and what a JSON reply of the host decodes to.
    A [float] is an IEEE 754 binary64 datum ([spec_float]); a [dict] keeps
    its entries in insertion order. *)
Inductive PyVal : Type :=
| VNone
| VBool (b : bool)
| VInt (n : Z)
| VFloat (x : spec_float)
| VStr (s : string)
| VList (items : list PyVal)
| VDict (entries : list (string * PyVal)).

Definition Dict : Type := list (string * PyVal).

(** [v is None] *)
Definition is_None (v : PyVal) : bool :=
  match v with VNone => true | _ => false end.

(** [bool(v)], the truth value tested by [if v] and [not v]. *)
Definition truthy (v : PyVal) : bool :=
  match v with
  | VNone => false
  | VBool b => b
  | VInt n => negb (n =? 0)%Z
  | VFloat x => match x with S754_zero _ => false | _ => true end
  | VStr s => negb (s =? "")
  | VList items => match items with [] => false | _ => true end
  | VDict entries => match entries with [] => false | _ => true end
  end.

(** [type(v).__name__] *)
Definition type_name (v : PyVal) : string :=
  match v with
  | VNone => "NoneType"
  | VBool _ => "bool"
  | VInt _ => "int"
  | VFloat _ => "float"
  | VStr _ => "str"
  | VList _ => "list"
  | VDict _ => "dict"
  end.

(** What a [raise] throws, an instance of [BaseException]: the name of its
    class, whether it is an instance of [Exception] (a [KeyboardInterrupt],
    a [SystemExit] or a [GeneratorExit] is not), and what [str(e)]
    returns. *)
Record Exn : Type := mkExn {
  exn_class : string;
  exn_is_Exception : bool;
  exn_str : string
}.

(** The exception raised by [v.attr] when the type of [v] has no such
    attribute. *)
Definition AttributeError (v : PyVal) (attr : string) : Exn :=
  mkExn "AttributeError" true
        ("'" ++ type_name v ++ "' object has no attribute '" ++ attr ++ "'").

(* ------------------------------------------------------------------ *)
(** *** Dictionaries *)

(** [d.get(k)] as an option: [None] when [k not in d]. *)
Fixpoint dict_get (k : string) (d : Dict) : option PyVal :=
  match d with
  | [] => None
  | (k', v) :: rest => if k' =? k then Some v else dict_get k rest
  end.

(** [k in d] *)
Definition dict_contains (k : string) (d : Dict) : bool :=
  match dict_get k d with Some _ => true | None => false end.

(** [d.get(k, default)] *)
Definition dict_get_default (k : string) (default : PyVal) (d : Dict) : PyVal :=
  match dict_get k d with Some v => v | None => default end.

(** [d[k] = v]: an existing key keeps its place, a new key goes last. *)
Fixpoint dict_set (k : string) (v : PyVal) (d : Dict) : Dict :=
  match d with
  | [] => [(k, v)]
  | (k', v') :: rest =>
      if k' =? k then (k, v) :: rest else (k', v') :: dict_set k v rest
  end.

(** [d.pop(k, None)], for the dictionary it leaves behind. *)
Fixpoint dict_pop (k : string) (d : Dict) : Dict :=
  match d with
  | [] => []
  | (k', v') :: rest =>
      if k' =? k then rest else (k', v') :: dict_pop k rest
  end.

(** [{k: v for k, v in d.items() if v is not None}] *)
Definition drop_None (d : Dict) : Dict :=
  filter (fun kv => negb (is_None (snd kv))) d.

(** The keys of a dictionary are pairwise distinct. *)
Fixpoint distinct_keys (ks : list string) : bool :=
  match ks with
  | [] => true
  | k :: rest => negb (existsb (String.eqb k) rest) && distinct_keys rest
  end.

(* ------------------------------------------------------------------ *)
(** *** String methods *)

(** A [str] is held as the sequence of its UTF-8 bytes: the backslash, the
    slash and the characters of [.prefab] are single bytes that occur in no
    longer encoding, so the replacement and the suffix test below see what
    Python sees.

    [str.lower] on one character.  Only the letters A-Z have a lower-case
    form among the characters the suffix test can tell apart: no character
    outside ASCII lower-cases to one of [.prefab]. *)
Definition lower_char (c : ascii) : ascii :=
  let n := nat_of_ascii c in
  if (65 <=? n)%nat && (n <=? 90)%nat then ascii_of_nat (n + 32) else c.

(** [s.lower()] *)
Fixpoint lower (s : string) : string :=
  match s with
  | EmptyString => EmptyString
  | String c rest => String (lower_char c) (lower rest)
  end.

(** [s.replace(old, new)] for one-character [old] and [new]. *)
Fixpoint replace (old new : ascii) (s : string) : string :=
  match s with
  | EmptyString => EmptyString
  | String c rest =>
      String (if Ascii.eqb c old then new else c) (replace old new rest)
  end.

(** [s.endswith(suffix)] *)
Definition endswith (s suffix : string) : bool :=
  (String.length suffix <=? String.length s)%nat &&
  (substring (String.length s - String.length suffix) (String.length suffix) s
   =? suffix).

(** [sub in s] as a proposition: [s] contains [sub]. *)
Definition Contains (s sub : string) : Prop :=
  exists before after, s = (before ++ sub ++ after)%string.

Definition backslash : ascii := ascii_of_nat 92.
Definition slash : ascii := ascii_of_nat 47.

(* ================================================================== *)
(** ** The declared parameters *)
(* ================================================================== *)

(** [Union[str, int]] *)
Inductive StrOrInt : Type :=
| AStr (s : string)
| AnInt (n : Z).

Definition of_str_or_int (x : StrOrInt) : PyVal :=
  match x with AStr s => VStr s | AnInt n => VInt n end.

(** [Optional[T]]: [None] or a [T]. *)
Definition of_optional {T : Type} (inj : T -> PyVal) (o : option T) : PyVal :=
  match o with None => VNone | Some x => inj x end.

(** [List[float]] *)
Definition of_floats (l : list spec_float) : PyVal := VList (map VFloat l).

(** [List[str]] *)
Definition of_strs (l : list string) : PyVal := VList (map VStr l).

(** [List[Union[str, Dict[str, Any]]]] *)
Definition of_components (l : list (string + Dict)) : PyVal :=
  VList (map (fun c => match c with inl s => VStr s | inr d => VDict d end) l).

(** [Dict[str, Dict[str, Any]]] *)
Definition of_component_properties (d : list (string * Dict)) : PyVal :=
  VDict (map (fun kv => (fst kv, VDict (snd kv))) d).

(** The local variables the body starts from: one value per declared
    parameter, typed as annotated ([ctx] is never read). *)
Record Args : Type := mkArgs {
  action : string;
  target : option StrOrInt;
  search_method : option string;
  name : option string;
  tag : option string;
  parent : option StrOrInt;
  position : option (list spec_float);
  rotation : option (list spec_float);
  scale : option (list spec_float);
  components_to_add : option (list (string + Dict));
  primitive_type : option string;
  save_as_prefab : option bool;
  prefab_path : option string;
  prefab_folder : option string;
  new_name : option string;
  new_parent : option StrOrInt;
  set_active : option bool;
  new_tag : option string;
  new_layer : option StrOrInt;
  components_to_remove : option (list string);
  component_properties : option (list (string * Dict));
  search_term : option string;
  find_all : option bool;
  search_in_children : option bool;
  search_inactive : option bool;
  component_name : option string
}.

(** A call site: [action] is required; each other parameter is either
    left out ([None]) or passed ([Some v], where [v] may itself be
    Python's [None]). *)
Record Call : Type := mkCall {
  kw_action : string;
  kw_target : option (option StrOrInt);
  kw_search_method : option (option string);
  kw_name : option (option string);
  kw_tag : option (option string);
  kw_parent : option (option StrOrInt);
  kw_position : option (option (list spec_float));
  kw_rotation : option (option (list spec_float));
  kw_scale : option (option (list spec_float));
  kw_components_to_add : option (option (list (string + Dict)));
  kw_primitive_type : option (option string);
  kw_save_as_prefab : option (option bool);
  kw_prefab_path : option (option string);
  kw_prefab_folder : option (option string);
  kw_new_name : option (option string);
  kw_new_parent : option (option StrOrInt);
  kw_set_active : option (option bool);
  kw_new_tag : option (option string);
  kw_new_layer : option (option StrOrInt);
  kw_components_to_remove : option (option (list string));
  kw_component_properties : option (option (list (string * Dict)));
  kw_search_term : option (option string);
  kw_find_all : option (option bool);
  kw_search_in_children : option (option bool);
  kw_search_inactive : option (option bool);
  kw_component_name : option (option string)
}.

(** A parameter left out takes the default of the signature. *)
Definition or_default {T : Type} (passed : option T) (default : T) : T :=
  match passed with Some v => v | None => default end.

(** Binding of a call to the parameters, lines 9-41: the defaults are
    [None] except [save_as_prefab], [find_all], [search_in_children],
    [search_inactive] ([False]) and [prefab_folder] (["Assets/Prefabs"]). *)
Definition bind_arguments (c : Call) : Args := {|
  action := kw_action c;
  target := or_default (kw_target c) None;
  search_method := or_default (kw_search_method c) None;
  name := or_default (kw_name c) None;
  tag := or_default (kw_tag c) None;
  parent := or_default (kw_parent c) None;
  position := or_default (kw_position c) None;
  rotation := or_default (kw_rotation c) None;
  scale := or_default (kw_scale c) None;
  components_to_add := or_default (kw_components_to_add c) None;
  primitive_type := or_default (kw_primitive_type c) None;
  save_as_prefab := or_default (kw_save_as_prefab c) (Some false);
  prefab_path := or_default (kw_prefab_path c) None;
  prefab_folder := or_default (kw_prefab_folder c) (Some "Assets/Prefabs");
  new_name := or_default (kw_new_name c) None;
  new_parent := or_default (kw_new_parent c) None;
  set_active := or_default (kw_set_active c) None;
  new_tag := or_default (kw_new_tag c) None;
  new_layer := or_default (kw_new_layer c) None;
  components_to_remove := or_default (kw_components_to_remove c) None;
  component_properties := or_default (kw_component_properties c) None;
  search_term := or_default (kw_search_term c) None;
  find_all := or_default (kw_find_all c) (Some false);
  search_in_children := or_default (kw_search_in_children c) (Some false);
  search_inactive := or_default (kw_search_inactive c) (Some false);
  component_name := or_default (kw_component_name c) None
|}.

(** A call that passes [action] and nothing else. *)
Definition only_action (a : string) : Call :=
  mkCall a None None None None None None None None None None None None None
         None None None None None None None None None None None None.

(** The optional parameters, for statements that range over all of them. *)
Inductive Field : Type :=
| Target | SearchMethod | Name | Tag | Parent | Position | Rotation | Scale
| ComponentsToAdd | PrimitiveType | SaveAsPrefab | PrefabPath | PrefabFolder
| NewName | NewParent | SetActive | NewTag | NewLayer | ComponentsToRemove
| ComponentProperties | SearchTerm | FindAll | SearchInChildren
| SearchInactive | ComponentName.

(** The key under which the body files a parameter, lines 68-93. *)
Definition wire_name (f : Field) : string :=
  match f with
  | Target => "target" | SearchMethod => "searchMethod" | Name => "name"
  | Tag => "tag" | Parent => "parent" | Position => "position"
  | Rotation => "rotation" | Scale => "scale"
  | ComponentsToAdd => "componentsToAdd" | PrimitiveType => "primitiveType"
  | SaveAsPrefab => "saveAsPrefab" | PrefabPath => "prefabPath"
  | PrefabFolder => "prefabFolder" | NewName => "newName"
  | NewParent => "newParent" | SetActive => "setActive" | NewTag => "newTag"
  | NewLayer => "newLayer" | ComponentsToRemove => "componentsToRemove"
  | ComponentProperties => "componentProperties" | SearchTerm => "searchTerm"
  | FindAll => "findAll" | SearchInChildren => "searchInChildren"
  | SearchInactive => "searchInactive" | ComponentName => "componentName"
  end.

(** The value a call passes for a parameter, if it passes one. *)
Definition passed (c : Call) (f : Field) : option PyVal :=
  match f with
  | Target => option_map (of_optional of_str_or_int) (kw_target c)
  | SearchMethod => option_map (of_optional VStr) (kw_search_method c)
  | Name => option_map (of_optional VStr) (kw_name c)
  | Tag => option_map (of_optional VStr) (kw_tag c)
  | Parent => option_map (of_optional of_str_or_int) (kw_parent c)
  | Position => option_map (of_optional of_floats) (kw_position c)
  | Rotation => option_map (of_optional of_floats) (kw_rotation c)
  | Scale => option_map (of_optional of_floats) (kw_scale c)
  | ComponentsToAdd =>
      option_map (of_optional of_components) (kw_components_to_add c)
  | PrimitiveType => option_map (of_optional VStr) (kw_primitive_type c)
  | SaveAsPrefab => option_map (of_optional VBool) (kw_save_as_prefab c)
  | PrefabPath => option_map (of_optional VStr) (kw_prefab_path c)
  | PrefabFolder => option_map (of_optional VStr) (kw_prefab_folder c)
  | NewName => option_map (of_optional VStr) (kw_new_name c)
  | NewParent => option_map (of_optional of_str_or_int) (kw_new_parent c)
  | SetActive => option_map (of_optional VBool) (kw_set_active c)
  | NewTag => option_map (of_optional VStr) (kw_new_tag c)
  | NewLayer => option_map (of_optional of_str_or_int) (kw_new_layer c)
  | ComponentsToRemove =>
      option_map (of_optional of_strs) (kw_components_to_remove c)
  | ComponentProperties =>
      option_map (of_optional of_component_properties)
                 (kw_component_properties c)
  | SearchTerm => option_map (of_optional VStr) (kw_search_term c)
  | FindAll => option_map (of_optional VBool) (kw_find_all c)
  | SearchInChildren => option_map (of_optional VBool) (kw_search_in_children c)
  | SearchInactive => option_map (of_optional VBool) (kw_search_inactive c)
  | ComponentName => option_map (of_optional VStr) (kw_component_name c)
  end.

(** The default the signature declares for a parameter. *)
Definition declared_default (f : Field) : PyVal :=
  match f with
  | SaveAsPrefab | FindAll | SearchInChildren | SearchInactive => VBool false
  | PrefabFolder => VStr "Assets/Prefabs"
  | _ => VNone
  end.

(** What a parameter holds when the body starts: the value passed, or the
    declared default when the call leaves it out. *)
Definition effective (c : Call) (f : Field) : PyVal :=
  match passed c f with Some v => v | None => declared_default f end.

(** The local variable of a parameter, as a Python value. *)
Definition local_value (a : Args) (f : Field) : PyVal :=
  match f with
  | Target => of_optional of_str_or_int (target a)
  | SearchMethod => of_optional VStr (search_method a)
  | Name => of_optional VStr (name a)
  | Tag => of_optional VStr (tag a)
  | Parent => of_optional of_str_or_int (parent a)
  | Position => of_optional of_floats (position a)
  | Rotation => of_optional of_floats (rotation a)
  | Scale => of_optional of_floats (scale a)
  | ComponentsToAdd => of_optional of_components (components_to_add a)
  | PrimitiveType => of_optional VStr (primitive_type a)
  | SaveAsPrefab => of_optional VBool (save_as_prefab a)
  | PrefabPath => of_optional VStr (prefab_path a)
  | PrefabFolder => of_optional VStr (prefab_folder a)
  | NewName => of_optional VStr (new_name a)
  | NewParent => of_optional of_str_or_int (new_parent a)
  | SetActive => of_optional VBool (set_active a)
  | NewTag => of_optional VStr (new_tag a)
  | NewLayer => of_optional of_str_or_int (new_layer a)
  | ComponentsToRemove => of_optional of_strs (components_to_remove a)
  | ComponentProperties =>
      of_optional of_component_properties (component_properties a)
  | SearchTerm => of_optional VStr (search_term a)
  | FindAll => of_optional VBool (find_all a)
  | SearchInChildren => of_optional VBool (search_in_children a)
  | SearchInactive => of_optional VBool (search_inactive a)
  | ComponentName => of_optional VStr (component_name a)
  end.

(* ================================================================== *)
(** ** Computations *)
(* ================================================================== *)

(** What the function takes from outside this file: the connection object
    of the [unity_connection] module, and Python's [str()] on values that
    are neither a [str] nor [None] (never reached with arguments of the
    annotated types, see [formatted_name_is_str]). *)
Class Runtime : Type := {
  UnityConnection : Type;
  builtin_str : PyVal -> string
}.

(** A computation either returns, raises, or calls into
    [unity_connection] and goes on with what the call returned or raised:
    [get_unity_connection()] and [conn.send_command(command_type, params)]. *)
Inductive Prog {R : Runtime} (A : Type) : Type :=
| Ret (a : A)
| Raise (e : Exn)
| GetUnityConnection (k : Exn + UnityConnection -> Prog A)
| SendCommand (conn : UnityConnection) (command_type : string) (params : Dict)
              (k : Exn + PyVal -> Prog A).

Arguments Ret {R A} a.
Arguments Raise {R A} e.
Arguments GetUnityConnection {R A} k.
Arguments SendCommand {R A} conn command_type params k.

(** One recorded [send_command] call. *)
Record Sent : Type := mkSent { sent_command : string; sent_params : Dict }.

(** A transport with internal state [W]: how each of the two calls answers
    and moves the state. *)
Record Transport {R : Runtime} (W : Type) : Type := mkTransport {
  connect : W -> (Exn + UnityConnection) * W;
  send : UnityConnection -> string -> Dict -> W -> (Exn + PyVal) * W
}.

Arguments mkTransport {R W} connect send.
Arguments connect {R W} _ _.
Arguments send {R W} _ _ _ _ _.

Section Gateway.
Context {R : Runtime}.

Fixpoint prog_bind {A B : Type} (m : Prog A) (f : A -> Prog B) : Prog B :=
  match m with
  | Ret a => f a
  | Raise e => Raise e
  | GetUnityConnection k => GetUnityConnection (fun r => prog_bind (k r) f)
  | SendCommand conn cmd params k =>
      SendCommand conn cmd params (fun r => prog_bind (k r) f)
  end.

(** [try: m  except Exception as e: handler e].  What is raised reaches
    the handler when it is an instance of [Exception], and goes on to the
    caller otherwise. *)
Fixpoint try_except {A : Type} (m : Prog A) (handler : Exn -> Prog A) : Prog A :=
  match m with
  | Ret a => Ret a
  | Raise e => if exn_is_Exception e then handler e else Raise e
  | GetUnityConnection k =>
      GetUnityConnection (fun r => try_except (k r) handler)
  | SendCommand conn cmd params k =>
      SendCommand conn cmd params (fun r => try_except (k r) handler)
  end.

#[global] Instance Monad_Prog : Monad Prog :=
  {| ret := @Ret R; bind := @prog_bind |}.

#[global] Instance Exception_Prog : MonadExc Exn Prog :=
  {| raise := @Raise R; catch := @try_except |}.

(** A call returns its result or re-raises what the callee raised. *)
Definition resume {X : Type} (r : Exn + X) : Prog X :=
  match r with inl e => Raise e | inr x => Ret x end.

Definition get_unity_connection : Prog UnityConnection :=
  GetUnityConnection resume.

Definition send_command (conn : UnityConnection) (command_type : string)
           (params : Dict) : Prog PyVal :=
  SendCommand conn command_type params resume.

(* ------------------------------------------------------------------ *)
(** *** Running a computation against a transport *)

(** [run T p w log]: the outcome of [p], the state of the transport
    afterwards, and [log] extended with the [send_command] calls made. *)
Fixpoint run {W A : Type} (T : Transport W) (p : Prog A) (w : W)
         (log : list Sent) : (Exn + A) * W * list Sent :=
  match p with
  | Ret a => (inr a, w, log)
  | Raise e => (inl e, w, log)
  | GetUnityConnection k =>
      let (r, w') := connect T w in run T (k r) w' log
  | SendCommand conn cmd params k =>
      let (r, w') := send T conn cmd params w in
      run T (k r) w' (log ++ [mkSent cmd params])
  end.


(* ================================================================== *)
(** ** The tool function *)
(* ================================================================== *)

(** [str(v)], as an f-string renders [{v}]. *)
Definition py_str (v : PyVal) : string :=
  match v with
  | VStr s => s
  | VNone => "None"
  | _ => builtin_str v
  end.

(** [v.lower()] *)
Definition py_lower (v : PyVal) : Prog string :=
  match v with
  | VStr s => ret (lower s)
  | _ => raise (AttributeError v "lower")
  end.

(** [v.get(key, default)] *)
Definition py_get (v : PyVal) (key : string) (default : PyVal) : Prog PyVal :=
  match v with
  | VDict d => ret (dict_get_default key default d)
  | _ => raise (AttributeError v "get")
  end.

(** Lines 67-94: the dictionary literal. *)
Definition params_literal (a : Args) : Dict :=
  [ ("action", VStr (action a));
    ("target", of_optional of_str_or_int (target a));
    ("searchMethod", of_optional VStr (search_method a));
    ("name", of_optional VStr (name a));
    ("tag", of_optional VStr (tag a));
    ("parent", of_optional of_str_or_int (parent a));
    ("position", of_optional of_floats (position a));
    ("rotation", of_optional of_floats (rotation a));
    ("scale", of_optional of_floats (scale a));
    ("componentsToAdd", of_optional of_components (components_to_add a));
    ("primitiveType", of_optional VStr (primitive_type a));
    ("saveAsPrefab", of_optional VBool (save_as_prefab a));
    ("prefabPath", of_optional VStr (prefab_path a));
    ("prefabFolder", of_optional VStr (prefab_folder a));
    ("newName", of_optional VStr (new_name a));
    ("newParent", of_optional of_str_or_int (new_parent a));
    ("setActive", of_optional VBool (set_active a));
    ("newTag", of_optional VStr (new_tag a));
    ("newLayer", of_optional of_str_or_int (new_layer a));
    ("componentsToRemove", of_optional of_strs (components_to_remove a));
    ("componentProperties",
       of_optional of_component_properties (component_properties a));
    ("searchTerm", of_optional VStr (search_term a));
    ("findAll", of_optional VBool (find_all a));
    ("searchInChildren", of_optional VBool (search_in_children a));
    ("searchInactive", of_optional VBool (search_inactive a));
    ("componentName", of_optional VStr (component_name a)) ].

(** [{"success": False, "message": message}] *)
Definition failure (message : PyVal) : Dict :=
  [ ("success", VBool false); ("message", message) ].

(** [{"success": True, "message": message, "data": data}] *)
Definition success (message data : PyVal) : Dict :=
  [ ("success", VBool true); ("message", message); ("data", data) ].

(** Where the lines before the dispatch leave the function: at a [return]
    of theirs, or with the parameters to send. *)
Inductive Prepared : Type :=
| Return (result : Dict)
| Proceed (params : Dict).

(** Lines 98-107: the prefab path logic. *)
Definition prefab_path_logic (a : Args) (params : Dict) : Prog Prepared :=
  if (action a =? "create") &&
     truthy (dict_get_default "saveAsPrefab" VNone params) then
    match dict_get "prefabPath" params with
    | None =>
        match dict_get "name" params with
        | None =>
            ret (Return (failure (VStr
              "Cannot create default prefab path: 'name' parameter is missing.")))
        | Some n =>
            if negb (truthy n) then
              ret (Return (failure (VStr
                "Cannot create default prefab path: 'name' parameter is missing.")))
            else
              let constructed_path :=
                (py_str (of_optional VStr (prefab_folder a)) ++ "/" ++
                 py_str n ++ ".prefab")%string in
              ret (Proceed (dict_set "prefabPath"
                     (VStr (replace backslash slash constructed_path)) params))
        end
    | Some p =>
        lowered <- py_lower p ;;
        if negb (endswith lowered ".prefab") then
          ret (Return (failure (VStr
            ("Invalid prefab_path: '" ++ py_str p ++
             "' must end with .prefab"))))
        else ret (Proceed params)
    end
  else ret (Proceed params).

(** Lines 67-110: everything before the dispatch. *)
Definition prepare_request (a : Args) : Prog Prepared :=
  let params := drop_None (params_literal a) in
  checked <- prefab_path_logic a params ;;
  match checked with
  | Return result => ret (Return result)
  | Proceed params => ret (Proceed (dict_pop "prefab_folder" params))
  end.

(** Lines 116-123: the dispatch and the reading of the response. *)
Definition dispatch (params : Dict) : Prog Dict :=
  conn <- get_unity_connection ;;
  response <- send_command conn "manage_gameobject" params ;;
  ok <- py_get response "success" VNone ;;
  if truthy ok then
    message <- py_get response "message"
                 (VStr "GameObject operation successful.") ;;
    data <- py_get response "data" VNone ;;
    ret (success message data)
  else
    message <- py_get response "error"
                 (VStr "An unknown error occurred during GameObject management.") ;;
    ret (failure message).

(** Lines 63-123: the body of the [try]. *)
Definition manage_gameobject_body (a : Args) : Prog Dict :=
  prepared <- prepare_request a ;;
  match prepared with
  | Return result => ret result
  | Proceed params => dispatch params
  end.

(** Lines 125-126: the handler. *)
Definition on_exception (e : Exn) : Prog Dict :=
  ret (failure (VStr ("Python error managing GameObject: " ++ exn_str e))).

(** Lines 62-126: [manage_gameobject]. *)
Definition manage_gameobject (a : Args) : Prog Dict :=
  catch (manage_gameobject_body a) on_exception.

(** The tool as a caller reaches it: the call is bound to the parameters,
    then the body runs. *)
Definition invoke (c : Call) : Prog Dict :=
  manage_gameobject (bind_arguments c).

End Gateway.

(* ------------------------------------------------------------------ *)
(** *** The same lines on the typed parameters *)

(** How the f-string renders [prefab_folder], an [Optional[str]]. *)
Definition format_folder (folder : option string) : string :=
  match folder with Some f => f | None => "None" end.

(** Lines 103-105: the path built from the folder and the name. *)
Definition derived_prefab_path (folder : option string) (n : string) : string :=
  replace backslash slash (format_folder folder ++ "/" ++ n ++ ".prefab").

(** [prepare_request] read on parameters of the annotated types, where no
    method call can fail ([prepare_request_typed] below proves that the
    function computes exactly this). *)
Definition local_outcome (a : Args) : Prepared :=
  let params := drop_None (params_literal a) in
  if (action a =? "create") &&
     match save_as_prefab a with Some true => true | _ => false end then
    match prefab_path a with
    | None =>
        match name a with
        | None | Some "" =>
            Return (failure (VStr
              "Cannot create default prefab path: 'name' parameter is missing."))
        | Some n =>
            Proceed (dict_pop "prefab_folder"
                       (dict_set "prefabPath"
                          (VStr (derived_prefab_path (prefab_folder a) n))
                          params))
        end
    | Some p =>
        if endswith (lower p) ".prefab" then
          Proceed (dict_pop "prefab_folder" params)
        else
          Return (failure (VStr
            ("Invalid prefab_path: '" ++ p ++ "' must end with .prefab")))
    end
  else Proceed (dict_pop "prefab_folder" params).

(** Line 126: what the handler returns for a caught exception. *)
Definition handled (e : Exn) : Dict :=
  failure (VStr ("Python error managing GameObject: " ++ exn_str e)).

(** Lines 125-126 on an exception raised in the [try]: caught and turned
    into a result when it is an instance of [Exception], raised on
    otherwise. *)
Definition caught (e : Exn) : Exn + Dict :=
  if exn_is_Exception e then inr (handled e) else inl e.

(** Lines 120-126 as a function of what [send_command] gave back: the
    exception it raised, a dictionary, or a value without [get]. *)
Definition read_reply (reply : Exn + PyVal) : Exn + Dict :=
  match reply with
  | inl e => caught e
  | inr (VDict r) =>
      if truthy (dict_get_default "success" VNone r) then
        inr (success
               (dict_get_default "message"
                  (VStr "GameObject operation successful.") r)
               (dict_get_default "data" VNone r))
      else
        inr (failure
               (dict_get_default "error"
                  (VStr "An unknown error occurred during GameObject management.")
                  r))
  | inr v => inr (handled (AttributeError v "get"))
  end.

(* ------------------------------------------------------------------ *)
(** *** What an invocation does to the transport *)

Section Outcomes.
Context {R : Runtime}.

(** The invocation ends before the dispatch: it returns [result] without
    any call into [unity_connection], whatever the transport. *)
Definition ReturnsLocally (a : Args) (result : Dict) : Prop :=
  forall (W : Type) (T : Transport W) (w : W) (log : list Sent),
    run T (manage_gameobject a) w log = (inr result, w, log).

(** The invocation reaches the dispatch with payload [p]: once the
    connection is obtained, exactly one command is sent, named
    [manage_gameobject] and carrying [p]. *)
Definition Dispatches (a : Args) (p : Dict) : Prop :=
  prepare_request a = Ret (Proceed p) /\
  forall (W : Type) (T : Transport W) (w w1 : W) (log : list Sent)
         (conn : UnityConnection),
    connect T w = (inr conn, w1) ->
    snd (run T (manage_gameobject a) w log)
    = log ++ [mkSent "manage_gameobject" p].

(** The Result Envelope: on failure [success: False] and a [message]
    string; on success [success: True], a [message] string and [data]. *)
Definition is_envelope (d : Dict) : Prop :=
  exists message : string,
    d = [ ("success", VBool false); ("message", VStr message) ] \/
    exists data : PyVal,
      d = [ ("success", VBool true); ("message", VStr message);
            ("data", data) ].

End Outcomes.

(* ------------------------------------------------------------------ *)
(** *** Sample runtime, transports and calls *)

(** A runtime whose connection object carries no data.  Its [str()] on
    values other than [str] and [None] is a stand-in (the type name): no
    invocation with parameters of the annotated types reaches it. *)
Definition sample_runtime : Runtime :=
  {| UnityConnection := unit; builtin_str := fun v => type_name v |}.

(** A transport that counts the calls it serves and answers every command
    with [response]. *)
Definition replying (response : PyVal) : @Transport sample_runtime nat :=
  mkTransport (R := sample_runtime)
    (fun w => (inr tt, S w))
    (fun _ _ _ w => (inr response, S w)).

(** A transport whose [send_command] raises [e]. *)
Definition failing_send (e : Exn) : @Transport sample_runtime nat :=
  mkTransport (R := sample_runtime)
    (fun w => (inr tt, S w))
    (fun _ _ _ w => (inl e, S w)).

(** A transport whose connection cannot be obtained. *)
Definition unreachable (e : Exn) : @Transport sample_runtime nat :=
  mkTransport (R := sample_runtime)
    (fun w => (inl e, S w))
    (fun _ _ _ w => (inl e, S w)).

(** [manage_gameobject(action="create", name="Cube", save_as_prefab=True)] *)
Definition create_cube_prefab : Call :=
  mkCall "create" None None (Some (Some "Cube")) None None None None None
         None None (Some (Some true)) None None
         None None None None None None None None None None None None.

(** The same with [prefab_folder="Assets\\Custom"]. *)
Definition create_cube_custom : Call :=
  mkCall "create" None None (Some (Some "Cube")) None None None None None
         None None (Some (Some true)) None (Some (Some "Assets\Custom"))
         None None None None None None None None None None None None.

(** [manage_gameobject(action="create", save_as_prefab=True)] *)
Definition create_unnamed_prefab : Call :=
  mkCall "create" None None None None None None None None
         None None (Some (Some true)) None None
         None None None None None None None None None None None None.

(** [manage_gameobject(action="create", save_as_prefab=True,
    prefab_path=path)] *)
Definition create_prefab_at (path : string) : Call :=
  mkCall "create" None None None None None None None None
         None None (Some (Some true)) (Some (Some path)) None
         None None None None None None None None None None None None.

(** [manage_gameobject(action="modify", target="Cube", tag="",
    new_layer=0, set_active=False, components_to_remove=[])] *)
Definition modify_with_falsy : Call :=
  mkCall "modify" (Some (Some (AStr "Cube"))) None None (Some (Some "")) None
         None None None None None None None None
         None None (Some (Some false)) None (Some (Some (AnInt 0)))
         (Some (Some [])) None None None None None None.

(** A host response reporting success, with a message and data. *)
Definition ok_response : Dict :=
  [ ("success", VBool true); ("message", VStr "ok");
    ("data", VDict [ ("id", VInt 5) ]) ].

(** A host response reporting failure. *)
Definition not_found_response : Dict :=
  [ ("success", VBool false); ("error", VStr "not found") ].

(** A host response with nothing but the success flag. *)
Definition bare_success_response : Dict := [ ("success", VBool true) ].

(** A fault of the transport. *)
Definition connection_lost : Exn :=
  mkExn "ConnectionError" true "connection lost".

(** An interrupt from the keyboard, which is no [Exception]. *)
Definition keyboard_interrupt : Exn := mkExn "KeyboardInterrupt" false "".

(** A host response whose message is not a string. *)
Definition null_message_response : Dict :=
  [ ("success", VBool true); ("message", VNone) ].

(** What [create_cube_prefab] sends. *)
Definition create_cube_payload : Dict :=
  [ ("action", VStr "create"); ("name", VStr "Cube");
    ("saveAsPrefab", VBool true); ("prefabFolder", VStr "Assets/Prefabs");
    ("findAll", VBool false); ("searchInChildren", VBool false);
    ("searchInactive", VBool false);
    ("prefabPath", VStr "Assets/Prefabs/Cube.prefab") ].

(** What [only_action "find"] sends. *)
Definition find_payload : Dict :=
  [ ("action", VStr "find"); ("saveAsPrefab", VBool false);
    ("prefabFolder", VStr "Assets/Prefabs"); ("findAll", VBool false);
    ("searchInChildren", VBool false); ("searchInactive", VBool false) ].

(** What [modify_with_falsy] sends. *)
Definition modify_payload : Dict :=
  [ ("action", VStr "modify"); ("target", VStr "Cube"); ("tag", VStr "");
    ("saveAsPrefab", VBool false); ("prefabFolder", VStr "Assets/Prefabs");
    ("setActive", VBool false); ("newLayer", VInt 0);
    ("componentsToRemove", VList []); ("findAll", VBool false);
    ("searchInChildren", VBool false); ("searchInactive", VBool false) ].

(* ================================================================== *)
(** ** Dictionary facts *)
(* ================================================================== *)

Lemma dict_get_absent (k : string) (d : Dict) :
  existsb (String.eqb k) (map fst d) = false -> dict_get k d = None.
Proof.
  induction d as [|[k' v] rest IH]; simpl; intros H; [reflexivity|].
  apply orb_false_iff in H. destruct H as [Hk Hrest].
  rewrite String.eqb_sym, Hk. auto.
Qed.

Lemma dict_get_present (k : string) (d : Dict) :
  dict_get k d <> None -> In k (map fst d).
Proof.
  induction d as [|[k' v] rest IH]; simpl; intros H; [congruence|].
  destruct (String.eqb_spec k' k); auto.
Qed.

Lemma dict_get_drop_None_absent (k : string) (d : Dict) :
  dict_get k d = None -> dict_get k (drop_None d) = None.
Proof.
  induction d as [|[k' v] rest IH]; simpl; intros H; [reflexivity|].
  destruct (k' =? k) eqn:E; [discriminate|].
  destruct (is_None v); simpl; [auto|]. rewrite E. auto.
Qed.

(** Filtering out the [None] entries of a dictionary literal with distinct
    keys: a key stays, with its value, exactly when that value is not
    [None]. *)
Lemma dict_get_drop_None (k : string) (d : Dict) :
  distinct_keys (map fst d) = true ->
  dict_get k (drop_None d)
  = match dict_get k d with
    | Some v => if is_None v then None else Some v
    | None => None
    end.
Proof.
  induction d as [|[k' v] rest IH]; simpl; intros H; [reflexivity|].
  apply andb_true_iff in H. destruct H as [Hk Hrest].
  apply negb_true_iff in Hk.
  destruct (k' =? k) eqn:E.
  - apply String.eqb_eq in E. subst k'.
    destruct (is_None v) eqn:N; simpl.
    + apply dict_get_drop_None_absent, dict_get_absent, Hk.
    + rewrite String.eqb_refl. reflexivity.
  - destruct (is_None v); simpl; [|rewrite E]; auto.
Qed.

Lemma dict_get_set_same (k : string) (v : PyVal) (d : Dict) :
  dict_get k (dict_set k v d) = Some v.
Proof.
  induction d as [|[k' v'] rest IH]; simpl.
  - rewrite String.eqb_refl. reflexivity.
  - destruct (k' =? k) eqn:E; simpl.
    + rewrite String.eqb_refl. reflexivity.
    + rewrite E. exact IH.
Qed.

Lemma dict_get_set_other (k k0 : string) (v : PyVal) (d : Dict) :
  k0 <> k -> dict_get k (dict_set k0 v d) = dict_get k d.
Proof.
  intros Hne. apply String.eqb_neq in Hne.
  induction d as [|[k' v'] rest IH]; simpl.
  - rewrite Hne. reflexivity.
  - destruct (k' =? k0) eqn:E; simpl.
    + apply String.eqb_eq in E. subst k'. rewrite Hne. reflexivity.
    + destruct (k' =? k); auto.
Qed.

(** Popping a key the dictionary does not hold changes nothing. *)
Lemma dict_pop_absent (k : string) (d : Dict) :
  dict_get k d = None -> dict_pop k d = d.
Proof.
  induction d as [|[k' v'] rest IH]; simpl; intros H; [reflexivity|].
  destruct (k' =? k); [discriminate|]. f_equal. auto.
Qed.

Lemma dict_get_drop_None_not_None (k : string) (d : Dict) :
  dict_get k (drop_None d) <> Some VNone.
Proof.
  induction d as [|[k' v] rest IH]; simpl; [discriminate|].
  destruct (is_None v) eqn:N; simpl; [exact IH|].
  destruct (k' =? k); [|exact IH].
  intros H. injection H as ->. discriminate.
Qed.

Lemma append_empty_r (s : string) : (s ++ "")%string = s.
Proof. induction s as [|c s IH]; simpl; [|rewrite IH]; reflexivity. Qed.

Lemma append_assoc (s t u : string) :
  ((s ++ t) ++ u)%string = (s ++ t ++ u)%string.
Proof. induction s as [|c s IH]; simpl; [|rewrite IH]; reflexivity. Qed.

Lemma Contains_suffix (s t : string) : Contains (s ++ t) t.
Proof. exists s, "". rewrite append_empty_r. reflexivity. Qed.

(* ================================================================== *)
(** ** The parameters dictionary *)
(* ================================================================== *)

Lemma literal_keys_distinct (a : Args) :
  distinct_keys (map fst (params_literal a)) = true.
Proof. reflexivity. Qed.

Lemma literal_lookup (a : Args) (f : Field) :
  dict_get (wire_name f) (params_literal a) = Some (local_value a f).
Proof. destruct f; reflexivity. Qed.

(** Every key of the literal is [action] or the wire name of a field. *)
Lemma literal_keys (a : Args) (k : string) :
  dict_get k (params_literal a) <> None ->
  k = "action" \/ exists f, k = wire_name f.
Proof.
  intros H. apply dict_get_present in H.
  unfold params_literal, map, fst in H.
  repeat (destruct H as [<-|H];
          [ first [ left; reflexivity | right ];
            first [ exists Target; reflexivity
                  | exists SearchMethod; reflexivity
                  | exists Name; reflexivity
                  | exists Tag; reflexivity
                  | exists Parent; reflexivity
                  | exists Position; reflexivity
                  | exists Rotation; reflexivity
                  | exists Scale; reflexivity
                  | exists ComponentsToAdd; reflexivity
                  | exists PrimitiveType; reflexivity
                  | exists SaveAsPrefab; reflexivity
                  | exists PrefabPath; reflexivity
                  | exists PrefabFolder; reflexivity
                  | exists NewName; reflexivity
                  | exists NewParent; reflexivity
                  | exists SetActive; reflexivity
                  | exists NewTag; reflexivity
                  | exists NewLayer; reflexivity
                  | exists ComponentsToRemove; reflexivity
                  | exists ComponentProperties; reflexivity
                  | exists SearchTerm; reflexivity
                  | exists FindAll; reflexivity
                  | exists SearchInChildren; reflexivity
                  | exists SearchInactive; reflexivity
                  | exists ComponentName; reflexivity ]
          | ]).
  destruct H.
Qed.

(** After the pruning of line 95 a field is present exactly when its
    parameter is not [None], and then holds the parameter's value. *)
Lemma pruned_lookup (a : Args) (f : Field) :
  dict_get (wire_name f) (drop_None (params_literal a))
  = if is_None (local_value a f) then None else Some (local_value a f).
Proof.
  rewrite dict_get_drop_None by apply literal_keys_distinct.
  rewrite literal_lookup. reflexivity.
Qed.

Lemma pruned_action (a : Args) :
  dict_get "action" (drop_None (params_literal a)) = Some (VStr (action a)).
Proof.
  rewrite dict_get_drop_None by apply literal_keys_distinct. reflexivity.
Qed.

Lemma pruned_keys (a : Args) (k : string) :
  dict_get k (drop_None (params_literal a)) <> None ->
  k = "action" \/ exists f, k = wire_name f.
Proof.
  intros H. apply (literal_keys a).
  intros E. apply H. apply dict_get_drop_None_absent, E.
Qed.

(** The key popped at line 110 is the parameter's Python name, which is
    not a key of the dictionary: the [pop] removes nothing. *)
Lemma pop_prefab_folder_pruned (a : Args) :
  dict_pop "prefab_folder" (drop_None (params_literal a))
  = drop_None (params_literal a).
Proof.
  apply dict_pop_absent, dict_get_drop_None_absent. reflexivity.
Qed.

Lemma pop_prefab_folder_derived (a : Args) (v : PyVal) :
  dict_pop "prefab_folder"
    (dict_set "prefabPath" v (drop_None (params_literal a)))
  = dict_set "prefabPath" v (drop_None (params_literal a)).
Proof.
  apply dict_pop_absent.
  rewrite dict_get_set_other by discriminate.
  apply dict_get_drop_None_absent. reflexivity.
Qed.

(** Binding computes, for each parameter, the value passed or else the
    declared default. *)
Lemma bound_value (c : Call) (f : Field) :
  local_value (bind_arguments c) f = effective c f.
Proof.
  unfold effective.
  destruct f; simpl;
    match goal with |- context [or_default ?x _] => destruct x as [[?|]|] end;
    reflexivity.
Qed.

Lemma pruned_save_as_prefab (a : Args) :
  truthy (dict_get_default "saveAsPrefab" VNone (drop_None (params_literal a)))
  = match save_as_prefab a with Some true => true | _ => false end.
Proof.
  unfold dict_get_default.
  pose proof (pruned_lookup a SaveAsPrefab) as H.
  cbn [wire_name local_value] in H. rewrite H.
  destruct (save_as_prefab a) as [[|]|]; reflexivity.
Qed.

Lemma pruned_prefab_path (a : Args) :
  dict_get "prefabPath" (drop_None (params_literal a))
  = option_map VStr (prefab_path a).
Proof.
  pose proof (pruned_lookup a PrefabPath) as H.
  cbn [wire_name local_value] in H. rewrite H.
  destruct (prefab_path a); reflexivity.
Qed.

Lemma pruned_name (a : Args) :
  dict_get "name" (drop_None (params_literal a)) = option_map VStr (name a).
Proof.
  pose proof (pruned_lookup a Name) as H.
  cbn [wire_name local_value] in H. rewrite H.
  destruct (name a); reflexivity.
Qed.

(* ================================================================== *)
(** ** The request *)
(* ================================================================== *)

Section Properties.
Context {R : Runtime}.

(** The value formatted as the name at line 103 is always a [str]: the
    branch of [py_str] that defers to [builtin_str] is never taken. *)
Lemma formatted_name_is_str (a : Args) (v : PyVal) :
  dict_get "name" (drop_None (params_literal a)) = Some v ->
  exists s, v = VStr s.
Proof.
  rewrite pruned_name. destruct (name a) as [s|]; simpl; intros H.
  - injection H as <-. exists s. reflexivity.
  - discriminate.
Qed.

(** With parameters of the annotated types, the lines before the dispatch
    neither raise nor call out, and compute [local_outcome]. *)
Lemma prepare_request_typed (a : Args) :
  prepare_request a = Ret (local_outcome a).
Proof.
  unfold prepare_request, prefab_path_logic, local_outcome.
  rewrite pruned_save_as_prefab, pruned_prefab_path, pruned_name.
  set (params := drop_None (params_literal a)).
  destruct ((action a =? "create") &&
            match save_as_prefab a with Some true => true | _ => false end);
    [|reflexivity].
  destruct (prefab_path a) as [p|]; cbn [option_map].
  - cbn [py_lower bind ret Monad_Prog prog_bind py_str].
    destruct (endswith (lower p) ".prefab"); reflexivity.
  - destruct (name a) as [n|]; cbn [option_map]; [|reflexivity].
    destruct n as [|ch n]; [reflexivity|].
    destruct (prefab_folder a); reflexivity.
Qed.

(** An invocation that returns before the dispatch leaves the transport
    alone. *)
Lemma run_return (a : Args) (result : Dict) :
  prepare_request a = Ret (Return result) -> ReturnsLocally a result.
Proof.
  intros H W T w log.
  unfold manage_gameobject, manage_gameobject_body. rewrite H. reflexivity.
Qed.

(** An invocation that reaches the dispatch asks for the connection; if
    that raises, the handler answers (or the fault goes on); otherwise it
    sends the one command and turns what comes back into the result. *)
Lemma run_proceed (a : Args) (p : Dict) (W : Type) (T : Transport W)
      (w : W) (log : list Sent) :
  prepare_request a = Ret (Proceed p) ->
  run T (manage_gameobject a) w log
  = match connect T w with
    | (inl e, w1) => (caught e, w1, log)
    | (inr conn, w1) =>
        let (reply, w2) := send T conn "manage_gameobject" p w1 in
        (read_reply reply, w2, log ++ [mkSent "manage_gameobject" p])
    end.
Proof.
  intros H.
  unfold manage_gameobject, manage_gameobject_body. rewrite H.
  cbn [bind ret catch Monad_Prog Exception_Prog prog_bind try_except
       dispatch get_unity_connection run].
  destruct (connect T w) as [[e|conn] w1].
  - cbn [resume prog_bind try_except]. unfold caught.
    destruct (exn_is_Exception e); reflexivity.
  - cbn [resume send_command prog_bind try_except run].
    destruct (send T conn "manage_gameobject" p w1) as [[e|response] w2].
    + cbn [resume prog_bind try_except read_reply]. unfold caught.
      destruct (exn_is_Exception e); reflexivity.
    + cbn [resume prog_bind try_except].
      destruct response; try reflexivity.
      cbn [py_get ret Monad_Prog prog_bind read_reply].
      destruct (truthy (dict_get_default "success" VNone entries));
        reflexivity.
Qed.

Lemma proceed_dispatches (a : Args) (p : Dict) :
  prepare_request a = Ret (Proceed p) -> Dispatches a p.
Proof.
  intros H. split; [exact H|].
  intros W T w w1 log conn Hc.
  rewrite (run_proceed a p W T w log H), Hc.
  destruct (send T conn "manage_gameobject" p w1). reflexivity.
Qed.

Lemma handled_is_envelope (e : Exn) : is_envelope (handled e).
Proof.
  exists ("Python error managing GameObject: " ++ exn_str e)%string.
  left. reflexivity.
Qed.

(** What the reading of a reply returns is a Result Envelope, unless the
    host's response carries a [message] (or, on failure, an [error]) that
    is not a string: that value is passed through as the message. *)
Lemma read_reply_cases (reply : Exn + PyVal) (result : Dict) :
  read_reply reply = inr result ->
  is_envelope result \/
  exists (response : Dict) (m : PyVal),
    reply = inr (VDict response) /\
    (dict_get "message" response = Some m \/
     dict_get "error" response = Some m) /\
    dict_get "message" result = Some m /\
    (forall s : string, m <> VStr s).
Proof.
  destruct reply as [e|v]; cbn [read_reply].
  - unfold caught. destruct (exn_is_Exception e); [|discriminate].
    intros H. inversion H. left. apply handled_is_envelope.
  - destruct v;
      try (intros H; inversion H; left; apply handled_is_envelope).
    unfold dict_get_default at 2 4.
    destruct (truthy (dict_get_default "success" VNone entries)).
    + destruct (dict_get "message" entries) as [m|] eqn:Em; intros H;
        inversion H.
      * destruct m;
          try (right; exists entries; eexists; split; [reflexivity|];
               split; [left; exact Em|]; split; [reflexivity|discriminate]).
        left. eexists. right. eexists. reflexivity.
      * left. eexists. right. eexists. reflexivity.
    + destruct (dict_get "error" entries) as [m|] eqn:Em; intros H;
        inversion H.
      * destruct m;
          try (right; exists entries; eexists; split; [reflexivity|];
               split; [right; exact Em|]; split; [reflexivity|discriminate]).
        left. eexists. left. reflexivity.
      * left. eexists. left. reflexivity.
Qed.

Lemma local_outcome_is_envelope (a : Args) (result : Dict) :
  local_outcome a = Return result -> is_envelope result.
Proof.
  unfold local_outcome. intros H.
  destruct ((action a =? "create") &&
            match save_as_prefab a with Some true => true | _ => false end);
    [|discriminate].
  destruct (prefab_path a) as [p|].
  - destruct (endswith (lower p) ".prefab"); [discriminate|].
    injection H as <-. eexists. left. reflexivity.
  - destruct (name a) as [[|ch n]|]; try discriminate;
      injection H as <-; eexists; left; reflexivity.
Qed.

Lemma triple_inj (A B C : Type) (x x' : A) (y y' : B) (z z' : C) :
  (x, y, z) = (x', y', z') -> x = x' /\ y = y' /\ z = z'.
Proof. intros H. inversion H. auto. Qed.

Lemma inr_inj (A B : Type) (x y : B) : @inr A B x = inr y -> x = y.
Proof. intros H. inversion H. reflexivity. Qed.

Lemma Proceed_inj (p q : Dict) : Proceed p = Proceed q -> p = q.
Proof. intros H. inversion H. reflexivity. Qed.

Lemma Ret_inj (A : Type) (x y : A) : Ret x = Ret y -> x = y.
Proof. intros H. inversion H. reflexivity. Qed.

(** The two ways to reach the dispatch: with the pruned parameters as
    they are, or with the derived [prefabPath] added to them. *)
Lemma proceed_cases (a : Args) (p : Dict) :
  local_outcome a = Proceed p ->
  p = drop_None (params_literal a) \/
  exists n,
    action a = "create" /\ save_as_prefab a = Some true /\
    prefab_path a = None /\ name a = Some n /\ n <> "" /\
    p = dict_set "prefabPath"
          (VStr (derived_prefab_path (prefab_folder a) n))
          (drop_None (params_literal a)).
Proof.
  unfold local_outcome.
  rewrite pop_prefab_folder_pruned.
  set (params := drop_None (params_literal a)).
  destruct (action a =? "create") eqn:Ea; cbn [andb];
    [|intros H; apply Proceed_inj in H; left; symmetry; exact H].
  destruct (save_as_prefab a) as [[|]|] eqn:Es;
    try (intros H; apply Proceed_inj in H; left; symmetry; exact H).
  destruct (prefab_path a) as [path|] eqn:Ep.
  - destruct (endswith (lower path) ".prefab"); [|discriminate].
    intros H; apply Proceed_inj in H; left; symmetry; exact H.
  - destruct (name a) as [[|ch n]|] eqn:En; try discriminate.
    unfold params. rewrite pop_prefab_folder_derived.
    intros H; apply Proceed_inj in H. right. exists (String ch n).
    apply String.eqb_eq in Ea.
    split; [exact Ea|]. split; [reflexivity|]. split; [reflexivity|].
    split; [reflexivity|]. split; [discriminate|]. symmetry; exact H.
Qed.

Lemma wire_name_not_prefab_path (f : Field) :
  f <> PrefabPath -> wire_name f <> "prefabPath".
Proof. destruct f; intros H; try discriminate. contradiction. Qed.

(* ================================================================== *)
(** ** Pruning (C1) *)
(* ================================================================== *)

(** C1, as the function has it.  For a call that reaches the dispatch with
    payload [p] (by [proceed_dispatches], the parameters of the one command
    sent): every optional field other than [prefabPath] and [prefabFolder]
    is in [p] exactly when the value its parameter holds - the value the
    caller passed, or the default of the signature when the caller left the
    parameter out - is not [None], and then [p] holds that value.  So a
    passed [False], [0], empty string or empty list stays, a parameter left
    out whose default is [None] is absent, and [saveAsPrefab], [findAll],
    [searchInChildren], [searchInactive] left out appear with their default
    [False].  [prefabPath] holds the value passed when that is not [None],
    and is otherwise present only for [action = "create"] with
    [save_as_prefab] true (the derived path).  [action] is always present,
    and [p] has no key besides [action] and the wire names. *)
Theorem payload_holds_the_non_None_parameters (c : Call) (p : Dict) :
  prepare_request (bind_arguments c) = Ret (Proceed p) ->
  (forall f : Field,
      f <> PrefabPath -> f <> PrefabFolder ->
      dict_get (wire_name f) p
      = if is_None (effective c f) then None else Some (effective c f)) /\
  (is_None (effective c PrefabPath) = false ->
   dict_get "prefabPath" p = Some (effective c PrefabPath)) /\
  (is_None (effective c PrefabPath) = true ->
   dict_get "prefabPath" p <> None ->
   kw_action c = "create" /\ effective c SaveAsPrefab = VBool true) /\
  dict_get "action" p = Some (VStr (kw_action c)) /\
  (forall k : string,
      dict_get k p <> None -> k = "action" \/ exists f, k = wire_name f).
Proof.
  intros H. rewrite prepare_request_typed in H. apply Ret_inj in H.
  apply proceed_cases in H.
  pose proof (pruned_lookup (bind_arguments c)) as L.
  pose proof (pruned_prefab_path (bind_arguments c)) as LP.
  pose proof (bound_value c) as B.
  assert (BP : effective c PrefabPath
               = of_optional VStr (prefab_path (bind_arguments c)))
    by (symmetry; apply (B PrefabPath)).
  assert (BS : effective c SaveAsPrefab
               = of_optional VBool (save_as_prefab (bind_arguments c)))
    by (symmetry; apply (B SaveAsPrefab)).
  split; [|split; [|split; [|split]]].
  - intros f Hpath _.
    rewrite <- (B f), <- (L f).
    destruct H as [->|(n & _ & _ & _ & _ & _ & ->)]; [reflexivity|].
    apply dict_get_set_other.
    intros E. symmetry in E. revert E. apply wire_name_not_prefab_path, Hpath.
  - intros Hsome. rewrite BP in *.
    destruct H as [->|(n & _ & _ & Hp & _)].
    + rewrite LP. destruct (prefab_path (bind_arguments c));
        [reflexivity|discriminate].
    + rewrite Hp in Hsome. discriminate.
  - intros Hnone Hin. rewrite BP in Hnone. rewrite BS.
    destruct H as [->|(n & Ha & Hs & _)].
    + exfalso. apply Hin. rewrite LP.
      destruct (prefab_path (bind_arguments c)); [discriminate|reflexivity].
    + split; [exact Ha|]. rewrite Hs. reflexivity.
  - destruct H as [->|(n & _ & _ & _ & _ & _ & ->)].
    + apply pruned_action.
    + rewrite dict_get_set_other by discriminate. apply pruned_action.
  - intros k Hk.
    destruct H as [->|(n & _ & _ & _ & _ & _ & ->)].
    + exact (pruned_keys _ k Hk).
    + destruct (String.eqb_spec "prefabPath" k) as [<-|Hne].
      * right. exists PrefabPath. reflexivity.
      * rewrite dict_get_set_other in Hk by exact Hne.
        exact (pruned_keys _ k Hk).
Qed.

(* ================================================================== *)
(** ** The prefab path (C2, C3, C4, C5, C10) *)
(* ================================================================== *)

Lemma outcome_derived (a : Args) (n : string) :
  action a = "create" -> save_as_prefab a = Some true ->
  prefab_path a = None -> name a = Some n -> n <> "" ->
  local_outcome a
  = Proceed (dict_set "prefabPath"
               (VStr (derived_prefab_path (prefab_folder a) n))
               (drop_None (params_literal a))).
Proof.
  intros Ha Hs Hp Hn Hne. unfold local_outcome.
  rewrite Ha, Hs, Hp, Hn, String.eqb_refl. cbn [andb].
  destruct n as [|ch n]; [contradiction|].
  rewrite pop_prefab_folder_derived. reflexivity.
Qed.

Lemma outcome_missing_name (a : Args) :
  action a = "create" -> save_as_prefab a = Some true ->
  prefab_path a = None -> name a = None \/ name a = Some "" ->
  local_outcome a
  = Return (failure (VStr
      "Cannot create default prefab path: 'name' parameter is missing.")).
Proof.
  intros Ha Hs Hp Hn. unfold local_outcome.
  rewrite Ha, Hs, Hp, String.eqb_refl. cbn [andb].
  destruct Hn as [-> | ->]; reflexivity.
Qed.

Lemma outcome_explicit_path (a : Args) (path : string) :
  action a = "create" -> save_as_prefab a = Some true ->
  prefab_path a = Some path ->
  local_outcome a
  = if endswith (lower path) ".prefab" then
      Proceed (drop_None (params_literal a))
    else
      Return (failure (VStr
        ("Invalid prefab_path: '" ++ path ++ "' must end with .prefab"))).
Proof.
  intros Ha Hs Hp. unfold local_outcome.
  rewrite Ha, Hs, Hp, String.eqb_refl, pop_prefab_folder_pruned.
  reflexivity.
Qed.

(** C2 fails on the code, at
    [manage_gameobject(action="create", name="Cube", save_as_prefab=True)]:
    the request is prepared without error and the payload handed to the
    transport holds [prefabFolder] next to the derived [prefabPath].
    Line 110 pops the key ["prefab_folder"], which the dictionary never
    holds; the entry filed at line 81 under ["prefabFolder"] stays. *)
Theorem prefab_folder_reaches_the_transport :
  Dispatches (bind_arguments create_cube_prefab) create_cube_payload /\
  dict_get "prefabFolder" create_cube_payload = Some (VStr "Assets/Prefabs") /\
  dict_get "prefabPath" create_cube_payload
  = Some (VStr "Assets/Prefabs/Cube.prefab").
Proof.
  split; [|split; reflexivity].
  apply proceed_dispatches. rewrite prepare_request_typed. reflexivity.
Qed.

(** C3.  For a call with [action = "create"], [save_as_prefab] true, no
    [prefab_path] (left out, or [None]) and a non-empty [name], the request
    is dispatched and the payload's [prefabPath] is
    ["{prefab_folder}/{name}.prefab"] with every backslash replaced by a
    slash, where [prefab_folder] is the value the caller passed, or
    ["Assets/Prefabs"] when the caller left it out. *)
Theorem derived_prefab_path_in_payload (c : Call) (n : string) :
  action (bind_arguments c) = "create" ->
  save_as_prefab (bind_arguments c) = Some true ->
  prefab_path (bind_arguments c) = None ->
  name (bind_arguments c) = Some n ->
  n <> "" ->
  exists p : Dict,
    Dispatches (bind_arguments c) p /\
    dict_get "prefabPath" p
    = Some (VStr (replace backslash slash
                    (format_folder
                       (or_default (kw_prefab_folder c) (Some "Assets/Prefabs"))
                     ++ "/" ++ n ++ ".prefab"))).
Proof.
  intros Ha Hs Hp Hn Hne.
  eexists. split.
  - apply proceed_dispatches. rewrite prepare_request_typed.
    rewrite (outcome_derived _ n Ha Hs Hp Hn Hne). reflexivity.
  - apply dict_get_set_same.
Qed.

(** C4.  With [action = "create"], [save_as_prefab] true, no [prefab_path]
    and [name] absent or empty, the function returns the failure with the
    message about the missing name and makes no call into the transport:
    its state and the log of sent commands are unchanged. *)
Theorem missing_name_fails_locally (a : Args) :
  action a = "create" ->
  save_as_prefab a = Some true ->
  prefab_path a = None ->
  name a = None \/ name a = Some "" ->
  ReturnsLocally a
    [ ("success", VBool false);
      ("message", VStr
         "Cannot create default prefab path: 'name' parameter is missing.") ].
Proof.
  intros Ha Hs Hp Hn. apply run_return.
  rewrite prepare_request_typed, (outcome_missing_name a Ha Hs Hp Hn).
  reflexivity.
Qed.

(** C5.  With [action = "create"], [save_as_prefab] true and a
    [prefab_path] whose lower-cased form does not end with [.prefab], the
    function returns a failure whose message contains the path and the
    suffix [.prefab], and makes no call into the transport. *)
Theorem wrong_extension_fails_locally (a : Args) (path : string) :
  action a = "create" ->
  save_as_prefab a = Some true ->
  prefab_path a = Some path ->
  endswith (lower path) ".prefab" = false ->
  exists message : string,
    ReturnsLocally a [ ("success", VBool false); ("message", VStr message) ] /\
    message = ("Invalid prefab_path: '" ++ path ++ "' must end with .prefab")%string /\
    Contains message path /\
    Contains message ".prefab".
Proof.
  intros Ha Hs Hp He. eexists. split; [|split; [reflexivity|split]].
  - apply run_return.
    rewrite prepare_request_typed, (outcome_explicit_path a path Ha Hs Hp), He.
    reflexivity.
  - exists "Invalid prefab_path: '", "' must end with .prefab". reflexivity.
  - exists ("Invalid prefab_path: '" ++ path ++ "' must end with ")%string, "".
    rewrite append_empty_r, !append_assoc. reflexivity.
Qed.

(** C10.  With [action = "create"], [save_as_prefab] true and a
    [prefab_path] whose lower-cased form ends with [.prefab], the request
    is dispatched and the payload's [prefabPath] is the string passed,
    character for character: no separator is rewritten. *)
Theorem explicit_prefab_path_verbatim (a : Args) (path : string) :
  action a = "create" ->
  save_as_prefab a = Some true ->
  prefab_path a = Some path ->
  endswith (lower path) ".prefab" = true ->
  exists p : Dict,
    Dispatches a p /\ dict_get "prefabPath" p = Some (VStr path).
Proof.
  intros Ha Hs Hp He. eexists. split.
  - apply proceed_dispatches.
    rewrite prepare_request_typed, (outcome_explicit_path a path Ha Hs Hp), He.
    reflexivity.
  - rewrite pruned_prefab_path, Hp. reflexivity.
Qed.

(* ================================================================== *)
(** ** The response (C6, C7) *)
(* ================================================================== *)

(** C6, as the function has it.  When the request is dispatched and the
    host's response is a dictionary whose [success] entry is true (any
    truthy value), the function returns [success: True], [message]: the
    response's [message] entry, or ["GameObject operation successful."]
    when it has none, and [data]: the response's [data] entry, or [None]
    when it has none.  The [data] entry is always there. *)
Theorem host_success_envelope
        (a : Args) (p : Dict) (W : Type) (T : Transport W) (w w1 w2 : W)
        (log : list Sent) (conn : UnityConnection) (response : Dict) :
  prepare_request a = Ret (Proceed p) ->
  connect T w = (inr conn, w1) ->
  send T conn "manage_gameobject" p w1 = (inr (VDict response), w2) ->
  truthy (dict_get_default "success" VNone response) = true ->
  run T (manage_gameobject a) w log
  = (inr [ ("success", VBool true);
           ("message",
              dict_get_default "message"
                (VStr "GameObject operation successful.") response);
           ("data", dict_get_default "data" VNone response) ],
     w2, log ++ [mkSent "manage_gameobject" p]).
Proof.
  intros Hp Hc Hs Ht.
  rewrite (run_proceed a p W T w log Hp), Hc, Hs.
  cbn [read_reply]. rewrite Ht. reflexivity.
Qed.

(** C7.  When the request is dispatched and the host's response is a
    dictionary whose [success] entry is false, falsy or absent, the function
    returns [success: False] and [message]: the response's [error] entry, or
    ["An unknown error occurred during GameObject management."] when it has
    none; the result has no [data] entry. *)
Theorem host_failure_envelope
        (a : Args) (p : Dict) (W : Type) (T : Transport W) (w w1 w2 : W)
        (log : list Sent) (conn : UnityConnection) (response : Dict) :
  prepare_request a = Ret (Proceed p) ->
  connect T w = (inr conn, w1) ->
  send T conn "manage_gameobject" p w1 = (inr (VDict response), w2) ->
  truthy (dict_get_default "success" VNone response) = false ->
  run T (manage_gameobject a) w log
  = (inr [ ("success", VBool false);
           ("message",
              dict_get_default "error"
                (VStr "An unknown error occurred during GameObject management.")
                response) ],
     w2, log ++ [mkSent "manage_gameobject" p]).
Proof.
  intros Hp Hc Hs Ht.
  rewrite (run_proceed a p W T w log Hp), Hc, Hs.
  cbn [read_reply]. rewrite Ht. reflexivity.
Qed.

(* ================================================================== *)
(** ** The outer boundary (C8) *)
(* ================================================================== *)

(** Running a [try] whose handler returns a value: what the body returns
    is returned; what it raises is handed to the handler when it is an
    instance of [Exception] and raised on otherwise; the calls made are
    those of the body. *)
Lemma run_try_except (A W : Type) (T : Transport W) (g : Exn -> A)
      (m : Prog A) :
  forall (w : W) (log : list Sent),
    run T (try_except m (fun e => Ret (g e))) w log
    = match run T m w log with
      | (inl e, w', log') =>
          (if exn_is_Exception e then inr (g e) else inl e, w', log')
      | (inr x, w', log') => (inr x, w', log')
      end.
Proof.
  induction m as [x|e|k IH|conn cmd params k IH]; intros w log;
    cbn [try_except run]; try reflexivity.
  - destruct (exn_is_Exception e); reflexivity.
  - destruct (connect T w) as [r w1]. apply IH.
  - destruct (send T conn cmd params w) as [r w1]. apply IH.
Qed.

(** A run sends nothing when the request ends locally, and at most the
    one command otherwise. *)
Lemma run_manage_gameobject (a : Args) (W : Type) (T : Transport W) (w : W)
      (log : list Sent) :
  match local_outcome a with
  | Return result =>
      run T (manage_gameobject a) w log = (inr result, w, log)
  | Proceed p =>
      exists (outcome : Exn + Dict) (w' : W) (n : nat),
        n <= 1 /\
        run T (manage_gameobject a) w log
        = (outcome, w', log ++ repeat (mkSent "manage_gameobject" p) n)
  end.
Proof.
  pose proof (prepare_request_typed a) as Hp.
  destruct (local_outcome a) as [result|p] eqn:Eo.
  - apply run_return, Hp.
  - rewrite (run_proceed a p W T w log Hp).
    destruct (connect T w) as [[e|conn] w1].
    + exists (caught e), w1, 0. cbn [repeat]. rewrite app_nil_r.
      split; [lia|reflexivity].
    + destruct (send T conn "manage_gameobject" p w1) as [reply w2].
      exists (read_reply reply), w2, 1. split; [lia|reflexivity].
Qed.

(** C8, as the function has it.  Whatever the parameters and the
    transport: when the body of the [try] raises [e] - from obtaining the
    connection, from [send_command], or from reading a response that has no
    [get] - and [e] is an instance of [Exception], the function returns
    [success: False] with the message ["Python error managing GameObject: "]
    followed by [str(e)], a Result Envelope whose message contains the
    detail; when [e] is no instance of [Exception] the function raises [e]
    itself.  And whenever the function returns, the value is a Result
    Envelope, unless the host's response carries a [message] (on failure,
    an [error]) that is not a string, which is passed through as the
    message. *)
Theorem caught_exceptions_become_envelopes
        (a : Args) (W : Type) (T : Transport W) (w : W) (log : list Sent) :
  (forall (e : Exn) (w' : W) (log' : list Sent),
      run T (manage_gameobject_body a) w log = (inl e, w', log') ->
      if exn_is_Exception e then
        run T (manage_gameobject a) w log
        = (inr [ ("success", VBool false);
                 ("message",
                    VStr ("Python error managing GameObject: " ++ exn_str e)) ],
           w', log') /\
        is_envelope
          [ ("success", VBool false);
            ("message",
               VStr ("Python error managing GameObject: " ++ exn_str e)) ] /\
        Contains ("Python error managing GameObject: " ++ exn_str e)
                 (exn_str e)
      else
        run T (manage_gameobject a) w log = (inl e, w', log')) /\
  (forall (result : Dict) (w' : W) (log' : list Sent),
      run T (manage_gameobject a) w log = (inr result, w', log') ->
      is_envelope result \/
      exists (p : Dict) (conn : UnityConnection) (w1 : W) (response : Dict)
             (m : PyVal),
        prepare_request a = Ret (Proceed p) /\
        connect T w = (inr conn, w1) /\
        send T conn "manage_gameobject" p w1 = (inr (VDict response), w') /\
        (dict_get "message" response = Some m \/
         dict_get "error" response = Some m) /\
        dict_get "message" result = Some m /\
        (forall s : string, m <> VStr s)).
Proof.
  split.
  - intros e w' log' Hb.
    change (manage_gameobject a)
      with (try_except (manage_gameobject_body a) (fun e => Ret (handled e))).
    rewrite run_try_except, Hb.
    destruct (exn_is_Exception e); [|reflexivity].
    split; [reflexivity|]. split; [apply handled_is_envelope|].
    apply Contains_suffix.
  - intros result w' log' Hrun.
    pose proof (prepare_request_typed a) as Hp.
    destruct (local_outcome a) as [local|p] eqn:Eo.
    + rewrite (run_return a local Hp W T w log) in Hrun.
      apply triple_inj in Hrun. destruct Hrun as (Hr & _ & _).
      apply inr_inj in Hr. subst result.
      left. exact (local_outcome_is_envelope a local Eo).
    + rewrite (run_proceed a p W T w log Hp) in Hrun.
      destruct (connect T w) as [[e|conn] w1] eqn:Ec.
      * apply triple_inj in Hrun. destruct Hrun as (Hr & _ & _).
        unfold caught in Hr. destruct (exn_is_Exception e); [|discriminate Hr].
        apply inr_inj in Hr. subst result. left. apply handled_is_envelope.
      * destruct (send T conn "manage_gameobject" p w1) as [reply w2] eqn:Es.
        apply triple_inj in Hrun. destruct Hrun as (Hr & Hw & _). subst w2.
        destruct (read_reply_cases reply result Hr)
          as [He|(response & m & -> & Hm & Hres & Hns)];
          [left; exact He|].
        right. exists p, conn, w1, response, m.
        repeat split; assumption.
Qed.

End Properties.

(* ================================================================== *)
(** ** The theorems on the sample calls *)
(* ================================================================== *)

(** C1 as stated fails: a call that passes only [action="find"] never
    mentions [find_all], yet [findAll] is in the payload, with the default
    [False] of the signature. *)
Lemma unmentioned_field_in_payload :
  passed (only_action "find") FindAll = None /\
  prepare_request (R := sample_runtime) (bind_arguments (only_action "find"))
  = Ret (Proceed find_payload) /\
  dict_get "findAll" find_payload = Some (VBool false).
Proof. repeat split. Qed.

(** [payload_holds_the_non_None_parameters] on [modify_with_falsy]: the
    empty string, [False], [0] and the empty list are kept, and a parameter
    left out with default [None] is absent. *)
Lemma falsy_values_survive :
  dict_get "tag" modify_payload = Some (VStr "") /\
  dict_get "setActive" modify_payload = Some (VBool false) /\
  dict_get "newLayer" modify_payload = Some (VInt 0) /\
  dict_get "componentsToRemove" modify_payload = Some (VList []) /\
  dict_get "newName" modify_payload = None.
Proof.
  pose proof (payload_holds_the_non_None_parameters (R := sample_runtime)
                modify_with_falsy modify_payload eq_refl) as [H _].
  split; [|split; [|split; [|split]]].
  - exact (H Tag ltac:(discriminate) ltac:(discriminate)).
  - exact (H SetActive ltac:(discriminate) ltac:(discriminate)).
  - exact (H NewLayer ltac:(discriminate) ltac:(discriminate)).
  - exact (H ComponentsToRemove ltac:(discriminate) ltac:(discriminate)).
  - exact (H NewName ltac:(discriminate) ltac:(discriminate)).
Defined.

(** [derived_prefab_path_in_payload] on [create_cube_custom]: the
    backslash of the folder becomes a slash. *)
Lemma cube_custom_prefab_path :
  exists p : Dict,
    Dispatches (R := sample_runtime) (bind_arguments create_cube_custom) p /\
    dict_get "prefabPath" p = Some (VStr "Assets/Custom/Cube.prefab").
Proof.
  exact (derived_prefab_path_in_payload (R := sample_runtime)
           create_cube_custom "Cube" eq_refl eq_refl eq_refl eq_refl
           ltac:(discriminate)).
Defined.

(** [missing_name_fails_locally] on [create_unnamed_prefab]: the transport
    has served no call and nothing is logged. *)
Lemma unnamed_prefab_fails_locally :
  run (replying VNone) (invoke create_unnamed_prefab) 0 []
  = (inr [ ("success", VBool false);
           ("message", VStr
              "Cannot create default prefab path: 'name' parameter is missing.") ],
     0, []).
Proof.
  exact (missing_name_fails_locally (R := sample_runtime)
           (bind_arguments create_unnamed_prefab)
           eq_refl eq_refl eq_refl (or_introl eq_refl)
           nat (replying VNone) 0 []).
Defined.

(** [wrong_extension_fails_locally] on [prefab_path="Assets/Foo.txt"]. *)
Lemma txt_path_fails_locally :
  exists message : string,
    ReturnsLocally (R := sample_runtime)
      (bind_arguments (create_prefab_at "Assets/Foo.txt"))
      [ ("success", VBool false); ("message", VStr message) ] /\
    message = "Invalid prefab_path: 'Assets/Foo.txt' must end with .prefab" /\
    Contains message "Assets/Foo.txt" /\
    Contains message ".prefab".
Proof.
  exact (wrong_extension_fails_locally (R := sample_runtime)
           (bind_arguments (create_prefab_at "Assets/Foo.txt"))
           "Assets/Foo.txt" eq_refl eq_refl eq_refl eq_refl).
Defined.

(** [explicit_prefab_path_verbatim] on a path with a backslash and an
    upper-case extension. *)
Lemma backslash_path_kept :
  exists p : Dict,
    Dispatches (R := sample_runtime)
      (bind_arguments (create_prefab_at "Assets\Foo.PREFAB")) p /\
    dict_get "prefabPath" p = Some (VStr "Assets\Foo.PREFAB").
Proof.
  exact (explicit_prefab_path_verbatim (R := sample_runtime)
           (bind_arguments (create_prefab_at "Assets\Foo.PREFAB"))
           "Assets\Foo.PREFAB" eq_refl eq_refl eq_refl eq_refl).
Defined.

(** C6 as stated fails: the host's response carries no [data] field, and
    the result still has a [data] entry, holding [None]. *)
Lemma data_entry_without_host_data :
  dict_contains "data" bare_success_response = false /\
  run (replying (VDict bare_success_response)) (invoke (only_action "find")) 0 []
  = (inr [ ("success", VBool true);
           ("message", VStr "GameObject operation successful.");
           ("data", VNone) ],
     2, [mkSent "manage_gameobject" find_payload]) /\
  dict_contains "data"
    [ ("success", VBool true);
      ("message", VStr "GameObject operation successful.");
      ("data", VNone) ] = true.
Proof. repeat split. Qed.

(** [host_success_envelope] on [ok_response]: message and data pass
    through. *)
Lemma ok_response_passes_through :
  run (replying (VDict ok_response)) (invoke (only_action "find")) 0 []
  = (inr [ ("success", VBool true); ("message", VStr "ok");
           ("data", VDict [ ("id", VInt 5) ]) ],
     2, [mkSent "manage_gameobject" find_payload]).
Proof.
  exact (host_success_envelope (R := sample_runtime)
           (bind_arguments (only_action "find")) find_payload
           nat (replying (VDict ok_response)) 0 1 2 [] tt ok_response
           eq_refl eq_refl eq_refl eq_refl).
Defined.

(** [host_failure_envelope] on [not_found_response]. *)
Lemma not_found_is_reported :
  run (replying (VDict not_found_response)) (invoke (only_action "find")) 0 []
  = (inr [ ("success", VBool false); ("message", VStr "not found") ],
     2, [mkSent "manage_gameobject" find_payload]).
Proof.
  exact (host_failure_envelope (R := sample_runtime)
           (bind_arguments (only_action "find")) find_payload
           nat (replying (VDict not_found_response)) 0 1 2 [] tt
           not_found_response eq_refl eq_refl eq_refl eq_refl).
Defined.

(** The body of the [try] does raise when [send_command] raises. *)
Example body_raises_on_failing_send :
  run (failing_send connection_lost)
      (manage_gameobject_body (bind_arguments (only_action "find"))) 0 []
  = (inl connection_lost, 2, [mkSent "manage_gameobject" find_payload]).
Proof. reflexivity. Qed.

(** C8 as stated fails twice.  A [KeyboardInterrupt] raised by
    [send_command] is no [Exception]: the handler of line 125 does not take
    it and the function raises it.  And a host response whose [message] is
    [None] comes back with that [None] as the message, which is no Result
    Envelope. *)
Lemma fault_propagates_and_message_passes_through :
  run (failing_send keyboard_interrupt) (invoke (only_action "find")) 0 []
  = (inl keyboard_interrupt, 2, [mkSent "manage_gameobject" find_payload]) /\
  run (replying (VDict null_message_response)) (invoke (only_action "find")) 0 []
  = (inr [ ("success", VBool true); ("message", VNone); ("data", VNone) ],
     2, [mkSent "manage_gameobject" find_payload]) /\
  ~ is_envelope
      [ ("success", VBool true); ("message", VNone); ("data", VNone) ].
Proof.
  split; [reflexivity|]. split; [reflexivity|].
  intros (m & [H|(data & H)]); discriminate H.
Qed.

(** [caught_exceptions_become_envelopes] on a transport whose
    [send_command] raises an [Exception]: the fault comes back as a failure
    envelope. *)
Lemma transport_fault_is_caught :
  run (failing_send connection_lost) (invoke (only_action "find")) 0 []
  = (inr [ ("success", VBool false);
           ("message",
              VStr "Python error managing GameObject: connection lost") ],
     2, [mkSent "manage_gameobject" find_payload]).
Proof.
  pose proof (proj1 (caught_exceptions_become_envelopes (R := sample_runtime)
                       (bind_arguments (only_action "find"))
                       nat (failing_send connection_lost) 0 [])
                    connection_lost 2
                    [mkSent "manage_gameobject" find_payload] eq_refl) as H.
  exact (proj1 H).
Defined.

(* ================================================================== *)
(** ** String facts *)
(* ================================================================== *)

Lemma length_append (s t : string) :
  String.length (s ++ t) = String.length s + String.length t.
Proof. induction s as [|c s IH]; simpl; [|rewrite IH]; reflexivity. Qed.

Lemma substring_all (s : string) : substring 0 (String.length s) s = s.
Proof. induction s as [|c s IH]; simpl; [|rewrite IH]; reflexivity. Qed.

Lemma substring_past_prefix (s t : string) (m : nat) :
  substring (String.length s) m (s ++ t) = substring 0 m t.
Proof. induction s as [|c s IH]; simpl; [reflexivity|exact IH]. Qed.

(** A string is its first [n] characters followed by the rest. *)
Lemma split_at (n : nat) :
  forall s : string,
    n <= String.length s ->
    s = (substring 0 n s ++ substring n (String.length s - n) s)%string.
Proof.
  induction n as [|n IH]; intros s Hn.
  - rewrite Nat.sub_0_r, substring_all. destruct s; reflexivity.
  - destruct s as [|c s]; simpl in Hn; [lia|].
    simpl. f_equal. apply IH. lia.
Qed.

Lemma length_substring_prefix (n : nat) :
  forall s : string,
    n <= String.length s -> String.length (substring 0 n s) = n.
Proof.
  induction n as [|n IH]; intros s Hn.
  - destruct s; reflexivity.
  - destruct s as [|c s]; simpl in Hn; [lia|].
    simpl. f_equal. apply IH. lia.
Qed.

Lemma append_inj_length (s1 : string) :
  forall t1 s2 t2 : string,
    String.length s1 = String.length t1 ->
    (s1 ++ s2)%string = (t1 ++ t2)%string -> s1 = t1 /\ s2 = t2.
Proof.
  induction s1 as [|c s1 IH]; intros [|d t1] s2 t2 Hl He;
    simpl in Hl; try discriminate.
  - split; [reflexivity|exact He].
  - simpl in He. inversion He as [[Hc Hs]].
    destruct (IH t1 s2 t2) as [-> ->]; [lia|exact Hs|]. split; reflexivity.
Qed.

(** [s.endswith(t)] holds exactly when [s] is some string followed by
    [t]. *)
Lemma endswith_append (s t : string) : endswith (s ++ t) t = true.
Proof.
  unfold endswith. rewrite length_append.
  replace (String.length s + String.length t - String.length t)
    with (String.length s) by lia.
  rewrite substring_past_prefix, substring_all, String.eqb_refl.
  apply andb_true_iff. split; [apply Nat.leb_le; lia|reflexivity].
Qed.

Lemma endswith_split (s t : string) :
  endswith s t = true -> exists before, s = (before ++ t)%string.
Proof.
  unfold endswith. intros H. apply andb_true_iff in H. destruct H as [Hl He].
  apply Nat.leb_le in Hl. apply String.eqb_eq in He.
  exists (substring 0 (String.length s - String.length t) s).
  pose proof (split_at (String.length s - String.length t) s) as Hs.
  replace (String.length s - (String.length s - String.length t))
    with (String.length t) in Hs by lia.
  rewrite He in Hs. apply Hs. lia.
Qed.

Lemma length_lower (s : string) : String.length (lower s) = String.length s.
Proof. induction s as [|c s IH]; simpl; [|rewrite IH]; reflexivity. Qed.

Lemma lower_append (s t : string) :
  lower (s ++ t) = (lower s ++ lower t)%string.
Proof. induction s as [|c s IH]; simpl; [|rewrite IH]; reflexivity. Qed.

Lemma replace_append (old new : ascii) (s t : string) :
  replace old new (s ++ t) = (replace old new s ++ replace old new t)%string.
Proof. induction s as [|c s IH]; simpl; [|rewrite IH]; reflexivity. Qed.

(** After [s.replace(old, new)] with [new] different from [old], no [old]
    is left. *)
Lemma replace_leaves_none (old new : ascii) (s : string) :
  new <> old -> ~ Contains (replace old new s) (String old "").
Proof.
  intros Hne (before & after & E). revert before E.
  induction s as [|c s IH]; intros [|b before] E; simpl in E;
    try discriminate.
  - inversion E as [[Hc Hs]].
    destruct (Ascii.eqb_spec c old) as [_|Hco]; [exact (Hne Hc)|exact (Hco Hc)].
  - inversion E as [[Hc Hs]]. exact (IH before Hs).
Qed.

(* ================================================================== *)
(** ** Further properties of the request and the dispatch *)
(* ================================================================== *)

(** [manage_gameobject(action="modify", target="Cube",
    prefab_path="notes.txt")] *)
Definition modify_with_txt_path : Call :=
  mkCall "modify" (Some (Some (AStr "Cube"))) None None None None
         None None None None None None (Some (Some "notes.txt")) None
         None None None None None None None None None None None None.

Lemma dict_set_Forall (P : string * PyVal -> Prop) (k : string) (v : PyVal)
      (d : Dict) :
  (forall k', P (k', v)) -> Forall P d -> Forall P (dict_set k v d).
Proof.
  intros Hv Hd. induction Hd as [|[k' v'] rest Hx Hrest IH]; simpl.
  - constructor; [apply Hv|constructor].
  - destruct (k' =? k); constructor; auto.
Qed.

Lemma drop_None_Forall (d : Dict) :
  Forall (fun kv => is_None (snd kv) = false) (drop_None d).
Proof.
  apply Forall_forall. intros kv Hin. unfold drop_None in Hin.
  apply filter_In in Hin. destruct Hin as [_ H].
  apply negb_true_iff in H. exact H.
Qed.

Section FurtherProperties.
Context {R : Runtime}.

(** The only local results are the two failures of the prefab checks. *)
Lemma local_return_cases (a : Args) (result : Dict) :
  local_outcome a = Return result ->
  action a = "create" /\ save_as_prefab a = Some true /\
  ((prefab_path a = None /\ (name a = None \/ name a = Some "") /\
    result = failure (VStr
      "Cannot create default prefab path: 'name' parameter is missing.")) \/
   (exists path : string,
       prefab_path a = Some path /\
       endswith (lower path) ".prefab" = false /\
       result = failure (VStr
         ("Invalid prefab_path: '" ++ path ++ "' must end with .prefab")))).
Proof.
  unfold local_outcome.
  set (params := drop_None (params_literal a)).
  destruct (String.eqb_spec (action a) "create") as [Ea|_]; cbn [andb];
    [|discriminate].
  destruct (save_as_prefab a) as [[|]|]; try discriminate.
  intros H. split; [exact Ea|]. split; [reflexivity|].
  destruct (prefab_path a) as [path|].
  - right. exists path. split; [reflexivity|].
    destruct (endswith (lower path) ".prefab"); [discriminate|].
    split; [reflexivity|]. inversion H. reflexivity.
  - left. split; [reflexivity|].
    destruct (name a) as [[|ch n]|]; try discriminate;
      (split; [auto|inversion H; reflexivity]).
Qed.

(** X1.  The function returns before the dispatch only for
    [action = "create"] with [save_as_prefab] true, and then with one of
    two results: the missing-name failure (no [prefab_path], [name] absent
    or empty) or the wrong-extension failure (a [prefab_path] that fails
    the suffix test).  No other parameter is checked locally. *)
Theorem local_failure_only_from_prefab_checks (a : Args) (result : Dict) :
  prepare_request a = Ret (Return result) ->
  action a = "create" /\ save_as_prefab a = Some true /\
  ((prefab_path a = None /\ (name a = None \/ name a = Some "") /\
    result = [ ("success", VBool false);
               ("message", VStr
                  "Cannot create default prefab path: 'name' parameter is missing.") ]) \/
   (exists path : string,
       prefab_path a = Some path /\
       endswith (lower path) ".prefab" = false /\
       result = [ ("success", VBool false);
                  ("message", VStr
                     ("Invalid prefab_path: '" ++ path ++
                      "' must end with .prefab")) ])).
Proof.
  intros H. rewrite prepare_request_typed in H. apply Ret_inj in H.
  exact (local_return_cases a result H).
Qed.

Lemma outcome_unchecked (a : Args) :
  action a <> "create" \/ save_as_prefab a <> Some true ->
  local_outcome a = Proceed (drop_None (params_literal a)).
Proof.
  intros H. unfold local_outcome. rewrite pop_prefab_folder_pruned.
  set (params := drop_None (params_literal a)).
  destruct (String.eqb_spec (action a) "create") as [Ea|_]; cbn [andb];
    [|reflexivity].
  destruct (save_as_prefab a) as [[|]|]; try reflexivity.
  destruct H as [H|H]; [contradiction|]. exfalso. apply H. reflexivity.
Qed.

(** X2.  When [action] is not ["create"], or [save_as_prefab] is not true,
    lines 99-107 are skipped: the request is dispatched with the pruned
    parameters as they are, and a [prefab_path] passed is forwarded
    whatever its extension. *)
Theorem prefab_checks_skipped_otherwise (a : Args) :
  action a <> "create" \/ save_as_prefab a <> Some true ->
  Dispatches a (drop_None (params_literal a)) /\
  dict_get "prefabPath" (drop_None (params_literal a))
  = option_map VStr (prefab_path a).
Proof.
  intros H. split; [|apply pruned_prefab_path].
  apply proceed_dispatches.
  rewrite prepare_request_typed, (outcome_unchecked a H). reflexivity.
Qed.

(** X3.  When [get_unity_connection()] raises [e], [send_command] is not
    called and the log of sent commands is unchanged: the function returns
    the failure envelope carrying [str(e)] when [e] is an instance of
    [Exception], and raises [e] otherwise. *)
Theorem no_send_without_connection
        (a : Args) (p : Dict) (W : Type) (T : Transport W) (w w1 : W)
        (log : list Sent) (e : Exn) :
  prepare_request a = Ret (Proceed p) ->
  connect T w = (inl e, w1) ->
  run T (manage_gameobject a) w log
  = (if exn_is_Exception e then
       inr [ ("success", VBool false);
             ("message",
                VStr ("Python error managing GameObject: " ++ exn_str e)) ]
     else inl e,
     w1, log).
Proof.
  intros Hp Hc. rewrite (run_proceed a p W T w log Hp), Hc. reflexivity.
Qed.

(** X4.  When [send_command] returns something that is not a dictionary,
    [response.get] raises [AttributeError] and the function returns the
    failure envelope naming the type of the response; the command has been
    sent. *)
Theorem non_dict_response_is_reported
        (a : Args) (p : Dict) (W : Type) (T : Transport W) (w w1 w2 : W)
        (log : list Sent) (conn : UnityConnection) (response : PyVal) :
  prepare_request a = Ret (Proceed p) ->
  connect T w = (inr conn, w1) ->
  send T conn "manage_gameobject" p w1 = (inr response, w2) ->
  (forall d, response <> VDict d) ->
  run T (manage_gameobject a) w log
  = (inr [ ("success", VBool false);
           ("message",
              VStr ("Python error managing GameObject: '" ++
                    type_name response ++
                    "' object has no attribute 'get'")) ],
     w2, log ++ [mkSent "manage_gameobject" p]).
Proof.
  intros Hp Hc Hs Hd. rewrite (run_proceed a p W T w log Hp), Hc, Hs.
  destruct response; try reflexivity.
  exfalso. exact (Hd entries eq_refl).
Qed.

(** X5.  One invocation makes at most one [send_command] call, whatever
    the host answers and whether the function returns or raises: the log
    is left as it was, or extended by the single command
    [manage_gameobject] with the prepared payload.  Nothing is retried and
    earlier entries are kept. *)
Theorem at_most_one_command
        (a : Args) (W : Type) (T : Transport W) (w : W) (log : list Sent) :
  snd (run T (manage_gameobject a) w log) = log \/
  exists p : Dict,
    prepare_request a = Ret (Proceed p) /\
    snd (run T (manage_gameobject a) w log)
    = log ++ [mkSent "manage_gameobject" p].
Proof.
  pose proof (run_manage_gameobject a W T w log) as H.
  pose proof (prepare_request_typed a) as Hp.
  destruct (local_outcome a) as [result|p].
  - left. rewrite H. reflexivity.
  - destruct H as (outcome & w' & n & Hn & Hr). rewrite Hr. cbn [snd].
    destruct n as [|[|n]]; [left; apply app_nil_r| |lia].
    right. exists p. split; [exact Hp|reflexivity].
Qed.

(** X6.  No entry of a dispatched payload holds [None]. *)
Theorem payload_has_no_None (a : Args) (p : Dict) :
  prepare_request a = Ret (Proceed p) ->
  Forall (fun kv => is_None (snd kv) = false) p.
Proof.
  intros H. rewrite prepare_request_typed in H. apply Ret_inj in H.
  apply proceed_cases in H.
  destruct H as [->|(n & _ & _ & _ & _ & _ & ->)].
  - apply drop_None_Forall.
  - apply dict_set_Forall; [reflexivity|apply drop_None_Forall].
Qed.


End FurtherProperties.

(* ================================================================== *)
(** ** Further properties of the prefab path *)
(* ================================================================== *)

(** The suffix test of line 106 accepts exactly the paths that end with
    an extension whose lower-case form is [.prefab]. *)
Lemma suffix_test_accepts (path : string) :
  endswith (lower path) ".prefab" = true <->
  exists stem ext : string,
    path = (stem ++ ext)%string /\ lower ext = ".prefab".
Proof.
  split.
  - intros H. pose proof H as Hs.
    apply endswith_split in Hs. destruct Hs as [before Hb].
    unfold endswith in H. apply andb_true_iff in H. destruct H as [Hl _].
    apply Nat.leb_le in Hl. rewrite length_lower in Hl.
    set (k := String.length path - String.length ".prefab") in *.
    assert (Hk : k <= String.length path) by (unfold k; lia).
    exists (substring 0 k path),
           (substring k (String.length path - k) path).
    split; [apply split_at, Hk|].
    pose proof (split_at k path Hk) as Hsplit.
    rewrite Hsplit, lower_append in Hb.
    apply append_inj_length in Hb; [exact (proj2 Hb)|].
    rewrite length_lower, (length_substring_prefix k path Hk).
    assert (Hlen : String.length (lower path)
                   = String.length (before ++ ".prefab")%string)
      by (rewrite Hsplit, lower_append, Hb; reflexivity).
    rewrite length_lower, length_append in Hlen. unfold k. lia.
  - intros (stem & ext & -> & He).
    rewrite lower_append, He. apply endswith_append.
Qed.

(** The derived path is some stem followed by [.prefab]. *)
Lemma derived_prefab_path_stem (folder : option string) (n : string) :
  derived_prefab_path folder n
  = (replace backslash slash (format_folder folder ++ "/" ++ n) ++ ".prefab")%string.
Proof.
  unfold derived_prefab_path.
  rewrite <- (append_assoc "/" n ".prefab").
  rewrite <- (append_assoc (format_folder folder) ("/" ++ n) ".prefab").
  rewrite replace_append. reflexivity.
Qed.

Lemma derived_prefab_path_accepted (folder : option string) (n : string) :
  endswith (lower (derived_prefab_path folder n)) ".prefab" = true.
Proof.
  rewrite derived_prefab_path_stem, lower_append.
  change (lower ".prefab") with ".prefab". apply endswith_append.
Qed.

Section PrefabPathProperties.
Context {R : Runtime}.

(** X8.  For [action = "create"] with [save_as_prefab] true and a
    [prefab_path], the request is dispatched exactly when the path is a
    stem followed by an extension whose lower-case form is [.prefab];
    every other path is refused locally. *)
Theorem accepted_extension_characterised (a : Args) (path : string) :
  action a = "create" ->
  save_as_prefab a = Some true ->
  prefab_path a = Some path ->
  ((exists p : Dict, prepare_request a = Ret (Proceed p)) <->
   exists stem ext : string,
     path = (stem ++ ext)%string /\ lower ext = ".prefab").
Proof.
  intros Ha Hs Hp.
  rewrite <- suffix_test_accepts, prepare_request_typed,
          (outcome_explicit_path a path Ha Hs Hp).
  destruct (endswith (lower path) ".prefab"); split.
  - reflexivity.
  - intros _. eexists. reflexivity.
  - intros [p H]. apply Ret_inj in H. discriminate H.
  - discriminate.
Qed.

(** X9.  The derived [prefabPath] of a payload contains no backslash and
    is a stem followed by [.prefab], whatever the folder and the name. *)
Theorem derived_path_is_clean (a : Args) (n : string) :
  action a = "create" ->
  save_as_prefab a = Some true ->
  prefab_path a = None ->
  name a = Some n ->
  n <> "" ->
  exists (p : Dict) (path stem : string),
    Dispatches a p /\
    dict_get "prefabPath" p = Some (VStr path) /\
    ~ Contains path (String backslash "") /\
    path = (stem ++ ".prefab")%string.
Proof.
  intros Ha Hs Hp Hn Hne.
  eexists. exists (derived_prefab_path (prefab_folder a) n). eexists.
  split; [|split; [|split]].
  - apply proceed_dispatches. rewrite prepare_request_typed.
    rewrite (outcome_derived a n Ha Hs Hp Hn Hne). reflexivity.
  - apply dict_get_set_same.
  - apply replace_leaves_none. discriminate.
  - apply derived_prefab_path_stem.
Qed.

(** X10.  A path the function derives is a path it accepts: passed back
    as [prefab_path] (with [action = "create"] and [save_as_prefab] true)
    it passes the suffix test and is sent unchanged. *)
Theorem derived_path_round_trip
        (a : Args) (folder : option string) (n : string) :
  action a = "create" ->
  save_as_prefab a = Some true ->
  prefab_path a = Some (derived_prefab_path folder n) ->
  exists p : Dict,
    Dispatches a p /\
    dict_get "prefabPath" p = Some (VStr (derived_prefab_path folder n)).
Proof.
  intros Ha Hs Hp. eexists. split.
  - apply proceed_dispatches.
    rewrite prepare_request_typed, (outcome_explicit_path a _ Ha Hs Hp),
            derived_prefab_path_accepted.
    reflexivity.
  - rewrite pruned_prefab_path, Hp. reflexivity.
Qed.

(** X11.  The [pop] of line 110 never removes an entry: in every
    dispatched payload [prefabFolder] is present exactly when the
    parameter [prefab_folder] is not [None], and holds its value. *)
Theorem pop_removes_nothing (a : Args) (p : Dict) :
  prepare_request a = Ret (Proceed p) ->
  dict_get "prefabFolder" p = option_map VStr (prefab_folder a).
Proof.
  intros H. rewrite prepare_request_typed in H. apply Ret_inj in H.
  apply proceed_cases in H.
  pose proof (pruned_lookup a PrefabFolder) as L.
  cbn [wire_name local_value] in L.
  assert (E : dict_get "prefabFolder" (drop_None (params_literal a))
              = option_map VStr (prefab_folder a))
    by (rewrite L; destruct (prefab_folder a); reflexivity).
  destruct H as [->|(n & _ & _ & _ & _ & _ & ->)]; [exact E|].
  rewrite dict_get_set_other by discriminate. exact E.
Qed.

End PrefabPathProperties.

(* ================================================================== *)
(** ** The further properties on the sample calls *)
(* ================================================================== *)

(** [local_failure_only_from_prefab_checks] on [create_unnamed_prefab]. *)
Lemma unnamed_prefab_is_a_prefab_check :
  action (bind_arguments create_unnamed_prefab) = "create" /\
  save_as_prefab (bind_arguments create_unnamed_prefab) = Some true.
Proof.
  pose proof (local_failure_only_from_prefab_checks (R := sample_runtime)
                (bind_arguments create_unnamed_prefab)
                [ ("success", VBool false);
                  ("message", VStr
                     "Cannot create default prefab path: 'name' parameter is missing.") ]
                eq_refl) as (Ha & Hs & _).
  split; [exact Ha|exact Hs].
Defined.

(** [prefab_checks_skipped_otherwise] on [modify_with_txt_path]: the path
    goes out although its extension is not [.prefab]. *)
Lemma txt_path_forwarded_on_modify :
  Dispatches (R := sample_runtime) (bind_arguments modify_with_txt_path)
    (drop_None (params_literal (bind_arguments modify_with_txt_path))) /\
  dict_get "prefabPath"
    (drop_None (params_literal (bind_arguments modify_with_txt_path)))
  = Some (VStr "notes.txt").
Proof.
  apply (prefab_checks_skipped_otherwise (R := sample_runtime)
           (bind_arguments modify_with_txt_path)).
  left. discriminate.
Defined.

(** [no_send_without_connection] on a transport that cannot connect. *)
Lemma unreachable_host_is_reported :
  run (unreachable connection_lost) (invoke (only_action "find")) 0 []
  = (inr [ ("success", VBool false);
           ("message",
              VStr "Python error managing GameObject: connection lost") ],
     1, []).
Proof.
  exact (no_send_without_connection (R := sample_runtime)
           (bind_arguments (only_action "find")) find_payload
           nat (unreachable connection_lost) 0 1 [] connection_lost
           eq_refl eq_refl).
Defined.

(** [non_dict_response_is_reported] on a transport that answers [None]. *)
Lemma none_response_is_reported :
  run (replying VNone) (invoke (only_action "find")) 0 []
  = (inr [ ("success", VBool false);
           ("message",
              VStr "Python error managing GameObject: 'NoneType' object has no attribute 'get'") ],
     2, [mkSent "manage_gameobject" find_payload]).
Proof.
  exact (non_dict_response_is_reported (R := sample_runtime)
           (bind_arguments (only_action "find")) find_payload
           nat (replying VNone) 0 1 2 [] tt VNone
           eq_refl eq_refl eq_refl ltac:(discriminate)).
Defined.

(** [payload_has_no_None] on [create_cube_prefab]. *)
Lemma cube_payload_has_no_None :
  Forall (fun kv => is_None (snd kv) = false) create_cube_payload.
Proof.
  exact (payload_has_no_None (R := sample_runtime)
           (bind_arguments create_cube_prefab) create_cube_payload eq_refl).
Defined.


(** [accepted_extension_characterised] on an upper-case extension: the
    request is dispatched, so the path splits as the theorem says. *)
Lemma upper_case_extension_splits :
  exists stem ext : string,
    "Assets\Foo.PREFAB" = (stem ++ ext)%string /\ lower ext = ".prefab".
Proof.
  apply (accepted_extension_characterised (R := sample_runtime)
           (bind_arguments (create_prefab_at "Assets\Foo.PREFAB"))
           "Assets\Foo.PREFAB" eq_refl eq_refl eq_refl).
  eexists. rewrite prepare_request_typed. reflexivity.
Defined.

(** [derived_path_is_clean] on [create_cube_custom]. *)
Lemma cube_custom_path_is_clean :
  exists (p : Dict) (path stem : string),
    Dispatches (R := sample_runtime) (bind_arguments create_cube_custom) p /\
    dict_get "prefabPath" p = Some (VStr path) /\
    ~ Contains path (String backslash "") /\
    path = (stem ++ ".prefab")%string.
Proof.
  exact (derived_path_is_clean (R := sample_runtime)
           (bind_arguments create_cube_custom) "Cube"
           eq_refl eq_refl eq_refl eq_refl ltac:(discriminate)).
Defined.

(** [derived_path_round_trip] on the path derived for [create_cube_custom],
    passed back as [prefab_path]. *)
Lemma cube_custom_path_round_trip :
  exists p : Dict,
    Dispatches (R := sample_runtime)
      (bind_arguments (create_prefab_at "Assets/Custom/Cube.prefab")) p /\
    dict_get "prefabPath" p = Some (VStr "Assets/Custom/Cube.prefab").
Proof.
  exact (derived_path_round_trip (R := sample_runtime)
           (bind_arguments (create_prefab_at "Assets/Custom/Cube.prefab"))
           (Some "Assets\Custom") "Cube" eq_refl eq_refl eq_refl).
Defined.

(** [pop_removes_nothing] on [create_cube_custom]: the folder passed is
    still in the payload, backslash included. *)
Lemma custom_folder_is_sent :
  exists p : Dict,
    prepare_request (R := sample_runtime) (bind_arguments create_cube_custom)
    = Ret (Proceed p) /\
    dict_get "prefabFolder" p = Some (VStr "Assets\Custom").
Proof.
  eexists. split; [rewrite prepare_request_typed; reflexivity|].
  apply (pop_removes_nothing (R := sample_runtime)
           (bind_arguments create_cube_custom)).
  rewrite prepare_request_typed. reflexivity.
Defined.
